(** * Blockcalls: the LiveKit token server ([src/server.js])

    A shallow embedding of the request handlers of [server.js] and of the
    helpers they call, followed by the properties of the room registry,
    of the room-name derivation and of the error paths.

    Conventions of the embedding.
    - A JavaScript string is a [string]: a sequence of code units, each an
      [ascii].  Identifiers are wallet addresses and room codes, so the
      case mappings are written out on the letters A-Z / a-z and are the
      identity on every other code unit.
    - Identifiers are strings, as in the data model of the specification: a
      field of a JSON request body is an [option string], [None] when the
      field is absent ([undefined] after destructuring), [Some s] when it
      holds the string [s].
    - [rooms] (a [Map]) is a [gmap string Room].  Every [Room] object is
      created by one [create-room] request and is referenced by the map
      only, so updating the object in place is updating the map entry.
    - What the handlers take from the runtime and from the LiveKit SDK
      (the random number rendered in base 36, the clock, the environment
      variables, the signing of a token) is the [Env] of a request.
    - A handler runs in the monad [Js]: it threads the [Server] state and
      either completes normally or throws; a mutation made before a throw
      stays, as in JavaScript. *)

From Stdlib Require Import ZArith Ascii.
From stdpp Require Import gmap strings list.

Local Open Scope string_scope.

(** ** Strings *)

Module JsString.

(** [String.prototype.toLowerCase], on one code unit. *)
Definition lower_unit (c : ascii) : ascii :=
  let n := Ascii.nat_of_ascii c in
  if (65 <=? n)%nat && (n <=? 90)%nat then Ascii.ascii_of_nat (n + 32) else c.

(** [String.prototype.toUpperCase], on one code unit. *)
Definition upper_unit (c : ascii) : ascii :=
  let n := Ascii.nat_of_ascii c in
  if (97 <=? n)%nat && (n <=? 122)%nat then Ascii.ascii_of_nat (n - 32) else c.

Fixpoint map_units (f : ascii -> ascii) (s : string) : string :=
  match s with
  | EmptyString => EmptyString
  | String c s' => String (f c) (map_units f s')
  end.

Definition toLowerCase (s : string) : string := map_units lower_unit s.
Definition toUpperCase (s : string) : string := map_units upper_unit s.

(** [s.substring(from, to)]: both indices are clamped to the length of
    [s] and swapped when [from > to]. *)
Definition substring (s : string) (from to : nat) : string :=
  let len := String.length s in
  let a := Nat.min from len in
  let b := Nat.min to len in
  String.substring (Nat.min a b) (Nat.max a b - Nat.min a b) s.

(** [x < y] on strings: code unit by code unit, a proper prefix first. *)
Definition lt (x y : string) : bool := String.ltb x y.

(** [Array.prototype.sort()] without a comparison function, on an array
    of strings: a stable sort by [lt]. *)
Fixpoint insert_sorted (x : string) (l : list string) : list string :=
  match l with
  | [] => [x]
  | y :: l' => if lt y x then y :: insert_sorted x l' else x :: y :: l'
  end.

Fixpoint sort (l : list string) : list string :=
  match l with
  | [] => []
  | x :: l' => insert_sorted x (sort l')
  end.

(** [a[i]] on an array of strings that has an element at [i]. *)
Definition at_index (l : list string) (i : nat) : string :=
  default EmptyString (l !! i).

(** Truthiness of a body field: [undefined] and the empty string are
    falsy, every other string is truthy. *)
Definition truthy (v : option string) : bool :=
  match v with
  | None => false
  | Some EmptyString => false
  | Some (String _ _) => true
  end.

(** Classes of code units: decimal digits, and the letters of each case. *)
Definition is_digit (c : ascii) : bool :=
  let n := Ascii.nat_of_ascii c in (48 <=? n)%nat && (n <=? 57)%nat.
Definition is_lower (c : ascii) : bool :=
  let n := Ascii.nat_of_ascii c in (97 <=? n)%nat && (n <=? 122)%nat.
Definition is_upper (c : ascii) : bool :=
  let n := Ascii.nat_of_ascii c in (65 <=? n)%nat && (n <=? 90)%nat.

(** The digits [Number.prototype.toString(36)] writes: 0-9 and a-z. *)
Definition base36_digit (c : ascii) : bool := is_digit c || is_lower c.

(** The uppercase alphanumeric alphabet: 0-9 and A-Z. *)
Definition upper_alnum (c : ascii) : bool := is_digit c || is_upper c.

Fixpoint all_units (p : ascii -> bool) (s : string) : bool :=
  match s with
  | EmptyString => true
  | String c s' => p c && all_units p s'
  end.

(** The strings [x.toString(36)] can be for a number [0 <= x < 1], as
    [Math.random()] is: [0] alone, or [0.] followed by at least one
    base-36 digit. *)
Definition radix36_fraction (r : string) : bool :=
  match r with
  | String "0" EmptyString => true
  | String "0" (String "." (String d ds)) =>
      all_units base36_digit (String d ds)
  | _ => false
  end.

End JsString.

Import JsString.

(** ** Helpers of [server.js] *)

(** [generateRoomId]: [random36] is [Math.random().toString(36)]. *)
Definition generateRoomId (random36 : string) : string :=
  toUpperCase (substring random36 2 12).

(** [createP2PRoomName]. *)
Definition createP2PRoomName (wallet1 wallet2 : string) : string :=
  let sorted := sort [toLowerCase wallet1; toLowerCase wallet2] in
  "call-" +:+ substring (at_index sorted 0) 0 8 +:+ "-"
          +:+ substring (at_index sorted 1) 0 8.

(** ** Data model *)

(** A room object, as built by [create-room]. *)
Module Room.
Record t := Build {
  id : string;
  host : string;
  participants : list string;
  created : Z
}.

(** [room.participants = ps]. *)
Definition set_participants (ps : list string) (room : t) : t :=
  {| id := id room; host := host room; participants := ps;
     created := created room |}.

(** [room.participants.push(p)]. *)
Definition push (p : string) (room : t) : t :=
  set_participants (participants room ++ [p]) room.
End Room.

(** The metadata object handed to [generateToken]; a field the caller
    leaves out is [None]. *)
Record Metadata := {
  displayName : option string;
  md_walletAddress : string;
  isHost : option bool;
  isCaller : option bool;
  callType : string
}.

(** The grant added by [at.addGrant]. *)
Record VideoGrant := {
  roomJoin : bool;
  room : string;
  canPublish : bool;
  canSubscribe : bool;
  canPublishData : bool
}.

(** The [AccessToken] object on which [toJwt] is called; [metadata] stands
    for [JSON.stringify(metadata)]. *)
Record AccessToken := {
  apiKey : option string;
  apiSecret : option string;
  identity : string;
  name : string;
  metadata : Metadata;
  grant : VideoGrant
}.

(** [req.body] after [express.json()]: the fields the handlers read. *)
Record Body := {
  roomId : option string;
  walletAddress : option string;
  callerWallet : option string;
  calleeWallet : option string
}.

(** The JSON bodies the handlers send.  Every shape but [Error] carries
    [success: true]. *)
Inductive Json :=
  | Error (error : string)
  | Health (status version timestamp : string) (activeRooms : nat)
           (livekitConnected : bool)
  | RoomCreated (roomId token : string) (livekitUrl : option string)
  | RoomJoined (token : string) (livekitUrl : option string)
               (id host : string) (participantCount : nat)
  | Call (token roomName : string) (livekitUrl : option string)
  | Success
  | RoomInfo (id host : string) (participantCount : nat) (created : Z).

Record Response := { status : nat; json : Json }.

(** [res.json(b)] answers with status 200, [res.status(n).json(b)] with [n]. *)
Definition res_json (b : Json) : Response := {| status := 200; json := b |}.
Definition res_status_json (n : nat) (b : Json) : Response :=
  {| status := n; json := b |}.

(** ** Effects *)

(** How an evaluation ends: with a value, or with a thrown error of which
    the handlers read [error.message] only. *)
Inductive Completion (A : Type) :=
  | Normal (a : A)
  | Throw (message : string).
Arguments Normal {A} a.
Arguments Throw {A} message.

(** What one request takes from the runtime and from the LiveKit SDK. *)
Record Env := {
  random36 : string;                      (* Math.random().toString(36) *)
  now : Z;                                (* Date.now() *)
  isoNow : string;                        (* new Date().toISOString() *)
  LIVEKIT_API_KEY : option string;
  LIVEKIT_API_SECRET : option string;
  LIVEKIT_URL : option string;
  toJwt : AccessToken -> Completion string (* new AccessToken(..).toJwt() *)
}.

(** The state of the process: the [rooms] map, and the trace of the
    [AccessToken]s that [generateToken] set out to build and sign, most
    recent first. *)
Record Server := {
  rooms : gmap string Room.t;
  issued : list AccessToken
}.

Definition initial : Server := {| rooms := ∅; issued := [] |}.

Definition Js (A : Type) : Type := Server -> Completion A * Server.

#[global] Instance Js_ret : MRet Js := fun A a st => (Normal a, st).

#[global] Instance Js_bind : MBind Js := fun A B k m st =>
  match m st with
  | (Normal a, st') => k a st'
  | (Throw message, st') => (Throw message, st')
  end.

(** [try { m } catch (error) { h error.message }], for a handler [h] that
    answers without throwing. *)
Definition try_catch (m : Js Response) (h : string -> Response)
    (st : Server) : Response * Server :=
  match m st with
  | (Normal r, st') => (r, st')
  | (Throw message, st') => (h message, st')
  end.

(** [rooms.get(key)]; the keys of [rooms] are strings, so [undefined] is
    never found. *)
Definition rooms_get (key : option string) : Js (option Room.t) :=
  fun st => (Normal (key ≫= fun k => rooms st !! k), st).

(** [rooms.set(key, room)]. *)
Definition rooms_set (key : string) (room : Room.t) : Js unit :=
  fun st => (Normal (), {| rooms := <[key := room]> (rooms st);
                           issued := issued st |}).

(** [rooms.delete(key)]. *)
Definition rooms_delete (key : option string) : Js unit :=
  fun st => (Normal (),
             {| rooms := from_option (fun k => delete k (rooms st)) (rooms st) key;
                issued := issued st |}).

(** An update [f] in place of [room], the object that [rooms.get(key)]
    returned: the map entry changes with it, and the result is the object
    as the handler sees it afterwards. *)
Definition room_update (key : option string) (f : Room.t -> Room.t)
    (room : Room.t) : Js Room.t :=
  fun st => (Normal (f room),
             {| rooms := from_option (fun k => alter f k (rooms st)) (rooms st) key;
                issued := issued st |}).

(** [at.toJwt()], for the token [at_] that [new AccessToken] and
    [addGrant] have built; whatever the three SDK calls throw is the [Throw]
    of [toJwt env at_]. *)
Definition call_toJwt (env : Env) (at_ : AccessToken) : Js string :=
  fun st => (toJwt env at_, {| rooms := rooms st; issued := at_ :: issued st |}).

(** The string held by a body field that passed the presence test. *)
Definition str (v : option string) : string := default EmptyString v.

(** ** [generateToken] *)

Definition generateToken (env : Env) (roomName participantName : string)
    (metadata : Metadata) : Js string :=
  let at_ := {|
    apiKey := LIVEKIT_API_KEY env;
    apiSecret := LIVEKIT_API_SECRET env;
    identity := participantName;
    name := if truthy (displayName metadata) then str (displayName metadata)
            else substring participantName 0 8;
    metadata := metadata;
    grant := {| roomJoin := true; room := roomName; canPublish := true;
                canSubscribe := true; canPublishData := true |}
  |} in
  call_toJwt env at_.

(** ** Request handlers *)

(** [GET /]; this handler has no [try]/[catch], and nothing in it throws. *)
Definition health (env : Env) : Server -> Response * Server :=
  fun st =>
    (res_json
       (Health "✅ BlockCall LiveKit Server Running" "2.0.0" (isoNow env)
          (size (rooms st))
          (truthy (LIVEKIT_API_KEY env) && truthy (LIVEKIT_API_SECRET env))),
     st).

(** [POST /api/create-room]. *)
Definition create_room (env : Env) (body : Body) : Server -> Response * Server :=
  try_catch
    (let walletAddress := walletAddress body in
     if negb (truthy walletAddress) then
       mret (res_status_json 400 (Error "Wallet address required"))
     else
       let roomId := generateRoomId (random36 env) in
       let room := {| Room.id := roomId;
                      Room.host := str walletAddress;
                      Room.participants := [str walletAddress];
                      Room.created := now env |} in
       rooms_set roomId room;;
       token ← generateToken env ("meeting-" +:+ roomId) (str walletAddress)
                 {| displayName := None;
                    md_walletAddress := str walletAddress;
                    isHost := Some true; isCaller := None;
                    callType := "group" |};
       mret (res_json (RoomCreated roomId token (LIVEKIT_URL env))))
    (fun message => res_status_json 500 (Error message)).

(** [POST /api/join-room]. *)
Definition join_room (env : Env) (body : Body) : Server -> Response * Server :=
  try_catch
    (let roomId := roomId body in
     let walletAddress := walletAddress body in
     if negb (truthy roomId) || negb (truthy walletAddress) then
       mret (res_status_json 400 (Error "Room ID and wallet address required"))
     else
       found ← rooms_get roomId;
       match found with
       | None => mret (res_status_json 404 (Error "Room not found"))
       | Some room =>
           room ← (if negb (bool_decide
                              (str walletAddress ∈ Room.participants room))
                   then room_update roomId (Room.push (str walletAddress)) room
                   else mret room);
           token ← generateToken env ("meeting-" +:+ str roomId)
                     (str walletAddress)
                     {| displayName := None;
                        md_walletAddress := str walletAddress;
                        isHost := Some false; isCaller := None;
                        callType := "group" |};
           mret (res_json
             (RoomJoined token (LIVEKIT_URL env) (Room.id room) (Room.host room)
                (length (Room.participants room))))
       end)
    (fun message => res_status_json 500 (Error message)).

(** [POST /api/start-call]. *)
Definition start_call (env : Env) (body : Body) : Server -> Response * Server :=
  try_catch
    (let callerWallet := callerWallet body in
     let calleeWallet := calleeWallet body in
     if negb (truthy callerWallet) || negb (truthy calleeWallet) then
       mret (res_status_json 400 (Error "Both wallet addresses required"))
     else
       let roomName := createP2PRoomName (str callerWallet) (str calleeWallet) in
       token ← generateToken env roomName (str callerWallet)
                 {| displayName := None;
                    md_walletAddress := str callerWallet;
                    isHost := None; isCaller := Some true;
                    callType := "p2p" |};
       mret (res_json (Call token roomName (LIVEKIT_URL env))))
    (fun message => res_status_json 500 (Error message)).

(** [POST /api/answer-call]. *)
Definition answer_call (env : Env) (body : Body) : Server -> Response * Server :=
  try_catch
    (let callerWallet := callerWallet body in
     let calleeWallet := calleeWallet body in
     if negb (truthy callerWallet) || negb (truthy calleeWallet) then
       mret (res_status_json 400 (Error "Both wallet addresses required"))
     else
       let roomName := createP2PRoomName (str callerWallet) (str calleeWallet) in
       token ← generateToken env roomName (str calleeWallet)
                 {| displayName := None;
                    md_walletAddress := str calleeWallet;
                    isHost := None; isCaller := Some false;
                    callType := "p2p" |};
       mret (res_json (Call token roomName (LIVEKIT_URL env))))
    (fun message => res_status_json 500 (Error message)).

(** [POST /api/leave-room]; [p !== walletAddress] holds of every [p] when
    [walletAddress] is [undefined]. *)
Definition leave_room (env : Env) (body : Body) : Server -> Response * Server :=
  try_catch
    (let roomId := roomId body in
     let walletAddress := walletAddress body in
     found ← rooms_get roomId;
     match found with
     | Some room =>
         room ← room_update roomId
                  (fun r => Room.set_participants
                     (filter (fun p => Some p ≠ walletAddress)
                        (Room.participants r)) r)
                  room;
         if (length (Room.participants room) =? 0)%nat
         then rooms_delete roomId
         else mret ()
     | None => mret ()
     end;;
     mret (res_json Success))
    (fun message => res_status_json 500 (Error message)).

(** [GET /api/room/:roomId]. *)
Definition get_room (env : Env) (roomId : string) : Server -> Response * Server :=
  try_catch
    (found ← rooms_get (Some roomId);
     match found with
     | None => mret (res_status_json 404 (Error "Room not found"))
     | Some room =>
         mret (res_json
           (RoomInfo (Room.id room) (Room.host room)
              (length (Room.participants room)) (Room.created room)))
     end)
    (fun message => res_status_json 500 (Error message)).

(** ** The server as a transition system *)

Inductive Request :=
  | GetRoot
  | PostCreateRoom (body : Body)
  | PostJoinRoom (body : Body)
  | PostStartCall (body : Body)
  | PostAnswerCall (body : Body)
  | PostLeaveRoom (body : Body)
  | GetRoom (roomId : string).

Definition handle (env : Env) (req : Request) : Server -> Response * Server :=
  match req with
  | GetRoot => health env
  | PostCreateRoom body => create_room env body
  | PostJoinRoom body => join_room env body
  | PostStartCall body => start_call env body
  | PostAnswerCall body => answer_call env body
  | PostLeaveRoom body => leave_room env body
  | GetRoom roomId => get_room env roomId
  end.

(** The states the process can be in: it starts with an empty [rooms] map
    and serves one request after the other, each to completion. *)
Inductive reachable : Server -> Prop :=
  | reachable_initial : reachable initial
  | reachable_handle env req st :
      reachable st -> reachable (handle env req st).2.

(** ** The registry invariant *)

(** A room as the data model wants it: no identifier twice among its
    participants, and at least one participant. *)
Definition room_ok (r : Room.t) : Prop :=
  NoDup (Room.participants r) /\ Room.participants r <> [].

Definition registry_ok (st : Server) : Prop :=
  forall k r, rooms st !! k = Some r -> room_ok r.

(** ** Predicates for the further properties *)

(** What [generateToken] puts in every token it builds for the handlers:
    the four grants, the display name cut from the identity, and the
    identity repeated in the metadata. *)
Definition token_ok (at_ : AccessToken) : Prop :=
  roomJoin (grant at_) = true /\
  canPublish (grant at_) = true /\
  canSubscribe (grant at_) = true /\
  canPublishData (grant at_) = true /\
  identity at_ <> EmptyString /\
  name at_ = substring (identity at_) 0 8 /\
  md_walletAddress (metadata at_) = identity at_.

(** The token a response carries, if any. *)
Definition token_of (res : Response) : option string :=
  match json res with
  | RoomCreated _ token _ => Some token
  | RoomJoined token _ _ _ _ => Some token
  | Call token _ _ => Some token
  | _ => None
  end.

(** A registry whose rooms sit under their own [id] and hold non-empty
    identifiers only. *)
Definition registry_keyed (st : Server) : Prop :=
  forall k r,
    rooms st !! k = Some r ->
    Room.id r = k /\ Room.host r <> EmptyString /\
    Forall (fun p => p <> EmptyString) (Room.participants r).

(** The requests that are not [create-room]. *)
Definition creates (req : Request) : bool :=
  match req with
  | PostCreateRoom _ => true
  | _ => false
  end.

(** ** Sample runs *)

Module Sample.

(** A signer that always succeeds, and one that always throws. *)
Definition signs (at_ : AccessToken) : Completion string :=
  Normal ("jwt:" +:+ identity at_ +:+ "@" +:+ room (grant at_)).

Definition fails (at_ : AccessToken) : Completion string :=
  Throw "secret is required".

Definition env (r : string) (sign : AccessToken -> Completion string) : Env :=
  {| random36 := r; now := 1700000000000;
     isoNow := "2023-11-14T22:13:20.000Z";
     LIVEKIT_API_KEY := Some "key"; LIVEKIT_API_SECRET := Some "secret";
     LIVEKIT_URL := Some "wss://example.livekit.cloud";
     toJwt := sign |}.

Definition body (roomId walletAddress : option string) : Body :=
  {| roomId := roomId; walletAddress := walletAddress;
     callerWallet := None; calleeWallet := None |}.

Definition call (callerWallet calleeWallet : option string) : Body :=
  {| roomId := None; walletAddress := None;
     callerWallet := callerWallet; calleeWallet := calleeWallet |}.

(** The state after [0xAAA1] has created a room. *)
Definition created : Server :=
  (handle (env "0.4fzyo82mvyr" signs)
     (PostCreateRoom (body None (Some "0xAAA1"))) initial).2.

(** ... and after [0xBBB2] has joined it. *)
Definition joined : Server :=
  (handle (env "0.x" signs)
     (PostJoinRoom (body (Some "4FZYO82MVY") (Some "0xBBB2"))) created).2.

End Sample.

Example sample_create_response :
  (create_room (Sample.env "0.4fzyo82mvyr" Sample.signs)
     (Sample.body None (Some "0xAAA1")) initial).1
  = res_json (RoomCreated "4FZYO82MVY" "jwt:0xAAA1@meeting-4FZYO82MVY"
                (Some "wss://example.livekit.cloud")).
Proof. reflexivity. Qed.

Example sample_created_room :
  rooms Sample.created !! "4FZYO82MVY"
  = Some (Room.Build "4FZYO82MVY" "0xAAA1" ["0xAAA1"] 1700000000000).
Proof. vm_compute. reflexivity. Qed.

Example sample_joined_room :
  rooms Sample.joined !! "4FZYO82MVY"
  = Some (Room.Build "4FZYO82MVY" "0xAAA1" ["0xAAA1"; "0xBBB2"] 1700000000000).
Proof. vm_compute. reflexivity. Qed.

Example sample_join_response :
  (join_room (Sample.env "0.x" Sample.signs)
     (Sample.body (Some "4FZYO82MVY") (Some "0xBBB2")) Sample.created).1
  = res_json (RoomJoined "jwt:0xBBB2@meeting-4FZYO82MVY"
                (Some "wss://example.livekit.cloud") "4FZYO82MVY" "0xAAA1" 2).
Proof. vm_compute. reflexivity. Qed.

Example p2p_alice_bob :
  createP2PRoomName "0xAlice1234" "0xBob5678" = "call-0xalice1-0xbob567".
Proof. reflexivity. Qed.

Example room_id_full :
  generateRoomId "0.4fzyo82mvyr" = "4FZYO82MVY".
Proof. reflexivity. Qed.

Example room_id_half :
  generateRoomId "0.i" = "I".
Proof. reflexivity. Qed.

(** ** Strings: lemmas *)

Section StringFacts.

(** Sorting a pair does not depend on the order the pair is given in. *)
Lemma sort_pair_comm x y : sort [x; y] = sort [y; x].
Proof.
  cbn. unfold lt, String.ltb.
  rewrite (String.compare_antisym x y).
  destruct (String.compare y x) eqn:E; cbn; try reflexivity.
  apply String.compare_eq_iff in E. by subst.
Qed.

Lemma length_map_units f s : String.length (map_units f s) = String.length s.
Proof. induction s as [|c s IH]; cbn; [done | by rewrite IH]. Qed.

Lemma length_String_substring n m s :
  String.length (String.substring n m s) = Nat.min m (String.length s - n).
Proof.
  revert n m; induction s as [|c s IH]; intros [|n] [|m]; cbn; try done.
  all: rewrite IH; lia.
Qed.

Lemma length_substring s from to :
  String.length (substring s from to)
  = Nat.min (Nat.max from to) (String.length s)
    - Nat.min (Nat.min from to) (String.length s).
Proof. unfold substring. rewrite length_String_substring. lia. Qed.

End StringFacts.

(** ** Running a handler *)

(** The helpers stay folded while a handler is run symbolically. *)
#[global] Arguments substring : simpl never.
#[global] Arguments generateRoomId : simpl never.
#[global] Arguments createP2PRoomName : simpl never.

(** Unfolds a handler down to a term on the state, its body fields and the
    outcome of [toJwt]. *)
Ltac js_run :=
  unfold handle, health, create_room, join_room, start_call, answer_call,
    leave_room, get_room, try_catch, generateToken, call_toJwt, rooms_get,
    rooms_set, rooms_delete, room_update, mbind, mret, Js_bind,
    Js_ret, res_json, res_status_json in *;
  cbn [walletAddress roomId callerWallet calleeWallet fst snd rooms issued
       status json] in *.

(** Case analysis on the outcome of the next call of [toJwt]. *)
Ltac js_sign :=
  match goal with
  | |- context [match toJwt ?env ?at_ with _ => _ end] =>
      destruct (toJwt env at_) eqn:?
  | H : context [match toJwt ?env ?at_ with _ => _ end] |- _ =>
      destruct (toJwt env at_) eqn:?
  end.

Lemma truthy_str v : truthy v = true -> v = Some (str v) /\ str v <> EmptyString.
Proof. destruct v as [[|c s]|]; cbn; by try discriminate. Qed.

Lemma truthy_Some s : s <> EmptyString -> truthy (Some s) = true.
Proof. by destruct s. Qed.

(** ** Room-name derivation *)

(** C1: the peer-to-peer room name does not depend on the order of the two
    identifiers; whenever [start-call] and [answer-call] both answer with a
    token for the same caller/callee pair, they answer with the same
    [roomName]; and they do both answer so, with the derived name, when the
    two identifiers are present and the tokens are signed. *)
Theorem p2p_room_name_order_independent (A B : string) :
  createP2PRoomName A B = createP2PRoomName B A /\
  (forall env1 env2 st1 st2 body t1 n1 u1 t2 n2 u2,
     callerWallet body = Some A ->
     calleeWallet body = Some B ->
     json (start_call env1 body st1).1 = Call t1 n1 u1 ->
     json (answer_call env2 body st2).1 = Call t2 n2 u2 ->
     n1 = n2 /\ n1 = createP2PRoomName A B) /\
  (forall env1 env2 st1 st2 body,
     callerWallet body = Some A ->
     calleeWallet body = Some B ->
     A <> EmptyString ->
     B <> EmptyString ->
     (forall at_, exists token, toJwt env1 at_ = Normal token) ->
     (forall at_, exists token, toJwt env2 at_ = Normal token) ->
     exists t1 t2,
       (start_call env1 body st1).1
       = res_json (Call t1 (createP2PRoomName A B) (LIVEKIT_URL env1)) /\
       (answer_call env2 body st2).1
       = res_json (Call t2 (createP2PRoomName A B) (LIVEKIT_URL env2))).
Proof.
  split_and!.
  - unfold createP2PRoomName.
    by rewrite (sort_pair_comm (toLowerCase A) (toLowerCase B)).
  - intros env1 env2 st1 st2 body t1 n1 u1 t2 n2 u2 HA HB H1 H2.
    js_run. rewrite HA, HB in *.
    destruct (negb (truthy (Some A)) || negb (truthy (Some B)));
      [discriminate|].
    repeat js_sign; cbn [fst snd json str default] in *; by simplify_eq.
  - intros env1 env2 st1 st2 body HA HB HA' HB' Hs1 Hs2.
    js_run. rewrite HA, HB, (truthy_Some A HA'), (truthy_Some B HB'). cbn.
    repeat match goal with
           | |- context [match toJwt env1 ?a with _ => _ end] =>
               destruct (Hs1 a) as [t1 ->]
           | |- context [match toJwt env2 ?a with _ => _ end] =>
               destruct (Hs2 a) as [t2 ->]
           end.
    by exists t1, t2.
Qed.

Lemma p2p_room_name_order_independent_witness :
  let body := Sample.call (Some "0xAlice1234") (Some "0xBob5678") in
  let env := Sample.env "0.x" Sample.signs in
  callerWallet body = Some "0xAlice1234" /\
  calleeWallet body = Some "0xBob5678" /\
  json (start_call env body initial).1
  = Call "jwt:0xAlice1234@call-0xalice1-0xbob567" "call-0xalice1-0xbob567"
      (Some "wss://example.livekit.cloud") /\
  json (answer_call env body initial).1
  = Call "jwt:0xBob5678@call-0xalice1-0xbob567" "call-0xalice1-0xbob567"
      (Some "wss://example.livekit.cloud") /\
  createP2PRoomName "0xAlice1234" "0xBob5678"
  = createP2PRoomName "0xBob5678" "0xAlice1234" /\
  "call-0xalice1-0xbob567" = createP2PRoomName "0xAlice1234" "0xBob5678".
Proof.
  cbv zeta.
  destruct (p2p_room_name_order_independent "0xAlice1234" "0xBob5678")
    as (Hsym & Hcall & _).
  split; [reflexivity|]. split; [reflexivity|].
  split; [reflexivity|]. split; [reflexivity|].
  split; [exact Hsym|].
  refine (proj2 (Hcall (Sample.env "0.x" Sample.signs)
                  (Sample.env "0.x" Sample.signs) initial initial
                  (Sample.call (Some "0xAlice1234") (Some "0xBob5678"))
                  "jwt:0xAlice1234@call-0xalice1-0xbob567"
                  "call-0xalice1-0xbob567" (Some "wss://example.livekit.cloud")
                  "jwt:0xBob5678@call-0xalice1-0xbob567"
                  "call-0xalice1-0xbob567" (Some "wss://example.livekit.cloud")
                  _ _ _ _));
    reflexivity.
Defined.

(** ** Room codes *)

Section RoomCode.

Lemma all_units_substring p n m s :
  all_units p s = true -> all_units p (String.substring n m s) = true.
Proof.
  revert n m; induction s as [|c s IH]; intros [|n] [|m]; cbn; try done.
  - intros [-> Hs]%andb_true_iff. by rewrite IH.
  - intros [_ Hs]%andb_true_iff. by apply IH.
  - intros [_ Hs]%andb_true_iff. by apply IH.
Qed.

Lemma upper_unit_alnum c :
  base36_digit c = true -> upper_alnum (upper_unit c) = true.
Proof. destruct c as [[] [] [] [] [] [] [] []]; vm_compute; done. Qed.

Lemma all_units_toUpperCase s :
  all_units base36_digit s = true ->
  all_units upper_alnum (toUpperCase s) = true.
Proof.
  unfold toUpperCase. induction s as [|c s IH]; cbn; [done|].
  intros [Hc Hs]%andb_true_iff. by rewrite upper_unit_alnum, IH.
Qed.

(** [substring(2, 12)] drops the two leading code units. *)
Lemma substring_2_12 a b ds :
  substring (String a (String b ds)) 2 12
  = String.substring 0 (Nat.min 10 (String.length ds)) ds.
Proof.
  unfold substring. cbn [String.length].
  replace (Nat.min 2 (S (S (String.length ds)))) with 2 by lia.
  replace (Nat.min 12 (S (S (String.length ds))))
    with (S (S (Nat.min 10 (String.length ds)))) by lia.
  replace (Nat.min 2 (S (S (Nat.min 10 (String.length ds))))) with 2 by lia.
  replace (Nat.max 2 (S (S (Nat.min 10 (String.length ds)))) - 2)
    with (Nat.min 10 (String.length ds)) by lia.
  reflexivity.
Qed.

End RoomCode.

(** Whatever base-36 rendering [r] of a number in [0, 1) the runtime gives,
    [generateRoomId] returns [min 10 (length r - 2)] code units, each of
    them an uppercase base-36 digit (0-9, A-Z). *)
Lemma generateRoomId_length_alphabet (r : string) :
  radix36_fraction r = true ->
  String.length (generateRoomId r) = Nat.min 10 (String.length r - 2) /\
  String.length (generateRoomId r) <= 10 /\
  all_units upper_alnum (generateRoomId r) = true.
Proof.
  intros Hr. unfold generateRoomId, toUpperCase.
  rewrite length_map_units, length_substring.
  split; [lia|]. split; [lia|]. fold (toUpperCase (substring r 2 12)).
  destruct r as [|a [|b ds]]; [done..|].
  rewrite substring_2_12. apply all_units_toUpperCase, all_units_substring.
  destruct a as [[] [] [] [] [] [] [] []]; try done.
  destruct b as [[] [] [] [] [] [] [] []]; try done.
  by destruct ds.
Qed.

(** C7: [generateRoomId] does not always give the ten characters the claim
    states.  [substring(2, 12)] takes at most ten digits and nothing pads a
    shorter rendering.  One half is written [0.i] in base 36, and the id
    made from it is [I].  Zero is written [0], and the id made from it is
    empty: [create-room] registers the room and answers with [roomId]
    empty, and [join-room] then refuses that id as a missing field. *)
Theorem generateRoomId_short_rendering :
  let env := Sample.env "0" Sample.signs in
  let created := create_room env (Sample.body None (Some "0xAAA1")) initial in
  radix36_fraction "0.i" = true /\
  generateRoomId "0.i" = "I" /\
  String.length (generateRoomId "0.i") <> 10 /\
  radix36_fraction "0" = true /\
  generateRoomId "0" = EmptyString /\
  created.1 = res_json (RoomCreated EmptyString "jwt:0xAAA1@meeting-"
                          (Some "wss://example.livekit.cloud")) /\
  rooms created.2 !! EmptyString
  = Some (Room.Build EmptyString "0xAAA1" ["0xAAA1"] 1700000000000) /\
  join_room env (Sample.body (Some EmptyString) (Some "0xBBB2")) created.2
  = (res_status_json 400 (Error "Room ID and wallet address required"),
     created.2).
Proof. cbv zeta. split_and!; vm_compute; done. Qed.

(** ** What each handler does to [rooms] *)

Section RegistryEffect.

Context (env : Env) (body : Body) (st : Server).

(** [GET /], [start-call], [answer-call] and [GET /api/room/:roomId] do
    not write to [rooms]. *)
Lemma health_rooms : rooms (health env st).2 = rooms st.
Proof. by js_run. Qed.

Lemma start_call_rooms : rooms (start_call env body st).2 = rooms st.
Proof.
  js_run. destruct (negb _ || negb _); [done|]. by js_sign.
Qed.

Lemma answer_call_rooms : rooms (answer_call env body st).2 = rooms st.
Proof.
  js_run. destruct (negb _ || negb _); [done|]. by js_sign.
Qed.

Lemma get_room_rooms k : rooms (get_room env k st).2 = rooms st.
Proof. js_run. cbn. by destruct (rooms st !! k). Qed.

(** [create-room] writes one entry, whether or not the token is signed. *)
Lemma create_room_rooms :
  rooms (create_room env body st).2 =
  if truthy (walletAddress body) then
    <[generateRoomId (random36 env) :=
        {| Room.id := generateRoomId (random36 env);
           Room.host := str (walletAddress body);
           Room.participants := [str (walletAddress body)];
           Room.created := now env |}]> (rooms st)
  else rooms st.
Proof.
  js_run. destruct (truthy (walletAddress body)); cbn; [|done]. by js_sign.
Qed.

(** [join-room] appends to one room, and only an identifier that is not
    in it already. *)
Lemma join_room_rooms :
  rooms (join_room env body st).2 =
  if negb (truthy (roomId body)) || negb (truthy (walletAddress body))
  then rooms st
  else match roomId body ≫= (fun k => rooms st !! k) with
       | None => rooms st
       | Some r =>
           if bool_decide (str (walletAddress body) ∈ Room.participants r)
           then rooms st
           else alter (Room.push (str (walletAddress body)))
                  (str (roomId body)) (rooms st)
       end.
Proof.
  js_run. destruct (roomId body) as [[|c k]|]; [done| |done].
  destruct (walletAddress body) as [[|c' w]|]; [done| |done]. cbn.
  destruct (rooms st !! String c k) as [r|]; [|done].
  destruct (bool_decide _); cbn; by js_sign.
Qed.

(** [leave-room] filters one room, and deletes it when nothing is left. *)
Lemma leave_room_rooms :
  rooms (leave_room env body st).2 =
  match roomId body with
  | None => rooms st
  | Some k =>
      match rooms st !! k with
      | None => rooms st
      | Some r =>
          let ps := filter (fun p => Some p ≠ walletAddress body)
                      (Room.participants r) in
          match ps with
          | [] => delete k (rooms st)
          | _ :: _ => <[k := Room.set_participants ps r]> (rooms st)
          end
      end
  end.
Proof.
  js_run. destruct (roomId body) as [k|]; cbn; [|done].
  destruct (rooms st !! k) as [r|] eqn:Hk; cbn; [|done].
  destruct (filter _ _) as [|p ps] eqn:Hf; cbn.
  - apply map_eq; intros j. destruct (decide (j = k)) as [->|].
    + by rewrite !lookup_delete_eq.
    + by rewrite !lookup_delete_ne, lookup_alter_ne.
  - apply map_eq; intros j. destruct (decide (j = k)) as [->|].
    + by rewrite lookup_alter_eq, lookup_insert_eq, Hk; cbn; rewrite Hf.
    + by rewrite lookup_alter_ne, lookup_insert_ne.
Qed.

(** Only [toJwt] writes to the trace of tokens. *)
Lemma leave_room_issued : issued (leave_room env body st).2 = issued st.
Proof.
  js_run. destruct (roomId body) as [k|]; cbn; [|done].
  destruct (rooms st !! k) as [r|]; cbn; [|done].
  by destruct (filter _ _).
Qed.

End RegistryEffect.

(** ** The registry invariant holds in every reachable state *)

Section Invariant.

Lemma room_ok_created id w t : room_ok (Room.Build id w [w] t).
Proof. split; cbn; [apply NoDup_singleton | done]. Qed.

Lemma room_ok_push w r :
  room_ok r -> w ∉ Room.participants r -> room_ok (Room.push w r).
Proof.
  intros [Hnd Hne] Hw. split; cbn.
  - apply NoDup_app. split_and!; [done| |apply NoDup_singleton].
    intros x Hx ->%list_elem_of_singleton. done.
  - by destruct (Room.participants r).
Qed.

Lemma room_ok_filter (P : string -> Prop) `{!forall p, Decision (P p)} r :
  room_ok r -> filter P (Room.participants r) <> [] ->
  room_ok (Room.set_participants (filter P (Room.participants r)) r).
Proof. intros [Hnd _] Hne. split; cbn; [by apply NoDup_filter | done]. Qed.

Lemma handle_registry_ok env req st :
  registry_ok st -> registry_ok (handle env req st).2.
Proof.
  intros Hok k r. destruct req as [|body|body|body|body|body|k']; cbn [handle].
  - rewrite health_rooms. apply Hok.
  - rewrite create_room_rooms. destruct (truthy _); [|apply Hok].
    rewrite lookup_insert. case_decide; [|apply Hok].
    intros [= <-]. apply room_ok_created.
  - rewrite join_room_rooms. destruct (negb _ || negb _); [apply Hok|].
    destruct (roomId body ≫= _) as [r0|] eqn:Hr0; [|apply Hok].
    case_bool_decide as Hin; [apply Hok|].
    rewrite lookup_alter. case_decide as Hk; [subst k|apply Hok].
    destruct (roomId body) as [k0|]; [|done]. cbn in *. rewrite Hr0. cbn.
    intros [= <-]. apply room_ok_push; [by eapply Hok|done].
  - rewrite start_call_rooms. apply Hok.
  - rewrite answer_call_rooms. apply Hok.
  - rewrite leave_room_rooms. destruct (roomId body) as [k0|]; [|apply Hok].
    destruct (rooms st !! k0) as [r0|] eqn:Hr0; [|apply Hok].
    cbv zeta. destruct (filter _ _) as [|p ps] eqn:Hf.
    + rewrite lookup_delete. case_decide; [done|apply Hok].
    + rewrite lookup_insert. case_decide; [|apply Hok].
      intros [= <-]. rewrite <- Hf. apply room_ok_filter; [by eapply Hok|].
      by rewrite Hf.
  - rewrite get_room_rooms. apply Hok.
Qed.

Lemma reachable_registry_ok st : reachable st -> registry_ok st.
Proof.
  induction 1 as [|env req st _ IH].
  - intros k r. cbn. by rewrite lookup_empty.
  - by apply handle_registry_ok.
Qed.

End Invariant.

(** ** The room registry *)

(** C2: after [create-room] for a host [H], the registry holds a room under
    the generated id (the id the response returns), its participants are
    exactly [[H]] and its host is [H]; reading the room back answers with
    that host and one participant. *)
Theorem create_room_registers env body st (H : string) :
  walletAddress body = Some H ->
  H <> EmptyString ->
  let id := generateRoomId (random36 env) in
  let st' := (create_room env body st).2 in
  (forall rid token url,
     json (create_room env body st).1 = RoomCreated rid token url -> rid = id) /\
  (exists r, rooms st' !! id = Some r /\
             Room.participants r = [H] /\ Room.host r = H) /\
  forall env', (get_room env' id st').1 = res_json (RoomInfo id H 1 (now env)).
Proof.
  intros Hw HH id st'.
  assert (Hst : rooms st' !! id
                = Some (Room.Build id H [H] (now env))).
  { subst st'. rewrite create_room_rooms, Hw, (truthy_Some H HH). cbn.
    by rewrite lookup_insert_eq. }
  split_and!.
  - intros rid token url. js_run. rewrite Hw, (truthy_Some H HH). cbn.
    js_sign; cbn; [|done]. by intros [= <- _ _].
  - eexists. split; [exact Hst|done].
  - intros env'. js_run. cbn. by rewrite Hst.
Qed.

Lemma create_room_registers_witness :
  let env := Sample.env "0.4fzyo82mvyr" Sample.signs in
  let body := Sample.body None (Some "0xAAA1") in
  walletAddress body = Some "0xAAA1" /\
  "0xAAA1" <> EmptyString /\
  exists r, rooms (create_room env body initial).2 !! "4FZYO82MVY" = Some r /\
            Room.participants r = ["0xAAA1"] /\ Room.host r = "0xAAA1".
Proof.
  cbv zeta. split; [reflexivity|]. split; [discriminate|].
  exact (proj1 (proj2
    (create_room_registers (Sample.env "0.4fzyo82mvyr" Sample.signs)
       (Sample.body None (Some "0xAAA1")) initial "0xAAA1" eq_refl
       ltac:(discriminate)))).
Defined.

(** C4: [join-room] for a room id that is not in the registry answers 404
    with [{error: "Room not found"}] and changes nothing: not the registry,
    and no token is signed. *)
Theorem join_room_unknown_room env body st (id w : string) :
  roomId body = Some id ->
  walletAddress body = Some w ->
  id <> EmptyString ->
  w <> EmptyString ->
  rooms st !! id = None ->
  join_room env body st = (res_status_json 404 (Error "Room not found"), st).
Proof.
  intros Hid Hw Hid' Hw' Hnone. js_run.
  rewrite Hid, Hw, (truthy_Some id Hid'), (truthy_Some w Hw'). cbn.
  by rewrite Hnone.
Qed.

Lemma join_room_unknown_room_witness :
  let body := Sample.body (Some "NOSUCHROOM") (Some "0xBBB2") in
  roomId body = Some "NOSUCHROOM" /\
  walletAddress body = Some "0xBBB2" /\
  "NOSUCHROOM" <> EmptyString /\
  "0xBBB2" <> EmptyString /\
  rooms Sample.created !! "NOSUCHROOM" = None /\
  join_room (Sample.env "0.x" Sample.signs) body Sample.created
  = ({| status := 404; json := Error "Room not found" |}, Sample.created).
Proof.
  cbv zeta. split; [reflexivity|]. split; [reflexivity|].
  split; [discriminate|]. split; [discriminate|].
  split; [vm_compute; reflexivity|].
  apply (join_room_unknown_room (Sample.env "0.x" Sample.signs)
           (Sample.body (Some "NOSUCHROOM") (Some "0xBBB2")) Sample.created
           "NOSUCHROOM" "0xBBB2" eq_refl eq_refl);
    [discriminate | discriminate | vm_compute; reflexivity].
Defined.

(** C9: [create-room] on a body without [walletAddress] answers 400 with
    [{error: "Wallet address required"}] and has no side effect: no room is
    inserted in the registry and [toJwt] is not called, the state is what
    it was. *)
Theorem create_room_missing_wallet env body st :
  walletAddress body = None ->
  let (res, st') := create_room env body st in
  status res = 400 /\
  json res = Error "Wallet address required" /\
  rooms st' = rooms st /\
  issued st' = issued st /\
  st' = st.
Proof.
  intros Hw. js_run. rewrite Hw. cbn [truthy negb].
  by split_and!.
Qed.

Lemma create_room_missing_wallet_witness :
  let body := Sample.body (Some "4FZYO82MVY") None in
  walletAddress body = None /\
  create_room (Sample.env "0.4fzyo82mvyr" Sample.signs) body Sample.created
  = ({| status := 400; json := Error "Wallet address required" |},
     Sample.created).
Proof.
  cbv zeta. split; [reflexivity|].
  pose proof (create_room_missing_wallet
                (Sample.env "0.4fzyo82mvyr" Sample.signs)
                (Sample.body (Some "4FZYO82MVY") None) Sample.created
                eq_refl) as Hc.
  destruct (create_room _ _ _) as [[n b] st'].
  destruct Hc as (Hn & Hb & _ & _ & Hst). cbn in Hn, Hb.
  by rewrite Hn, Hb, Hst.
Defined.

(** C6: [leave-room] answers [{success: true}] (status 200) whatever the
    body and the registry are, and does so again when the same request is
    repeated. *)
Theorem leave_room_always_succeeds env1 env2 body st :
  (leave_room env1 body st).1 = res_json Success /\
  (leave_room env2 body (leave_room env1 body st).2).1 = res_json Success.
Proof.
  assert (Hone : forall env s, (leave_room env body s).1 = res_json Success).
  { intros env s. js_run. destruct (roomId body) as [k|]; cbn; [|done].
    destruct (rooms s !! k) as [r|]; cbn; [|done].
    by destruct (filter _ _). }
  split; apply Hone.
Qed.

(** C8: when signing the token throws in [create-room], the handler
    answers 500 with the thrown message, and the room it had already
    inserted stays in the registry, with the host as its only participant. *)
Theorem create_room_token_failure env body st (w message : string) :
  walletAddress body = Some w ->
  w <> EmptyString ->
  (forall st0,
     (generateToken env ("meeting-" +:+ generateRoomId (random36 env)) w
        {| displayName := None; md_walletAddress := w;
           isHost := Some true; isCaller := None; callType := "group" |}
        st0).1 = Throw message) ->
  let id := generateRoomId (random36 env) in
  let room := {| Room.id := id; Room.host := w; Room.participants := [w];
                 Room.created := now env |} in
  (create_room env body st).1 = res_status_json 500 (Error message) /\
  rooms (create_room env body st).2 = <[id := room]> (rooms st) /\
  rooms (create_room env body st).2 !! id = Some room.
Proof.
  intros Hw Hw' Hthrow id room0.
  assert (Hrooms : rooms (create_room env body st).2 = <[id := room0]> (rooms st)).
  { by rewrite create_room_rooms, Hw, (truthy_Some w Hw'). }
  split_and!; [clear Hrooms|done|by rewrite Hrooms, lookup_insert_eq].
  specialize (Hthrow st). js_run. rewrite Hw, (truthy_Some w Hw'). cbn in *.
  js_sign; by simplify_eq.
Qed.

Lemma create_room_token_failure_witness :
  let env := Sample.env "0.4fzyo82mvyr" Sample.fails in
  let body := Sample.body None (Some "0xAAA1") in
  (create_room env body initial).1
  = {| status := 500; json := Error "secret is required" |} /\
  rooms (create_room env body initial).2 !! "4FZYO82MVY"
  = Some (Room.Build "4FZYO82MVY" "0xAAA1" ["0xAAA1"] 1700000000000).
Proof.
  cbv zeta.
  destruct (create_room_token_failure
              (Sample.env "0.4fzyo82mvyr" Sample.fails)
              (Sample.body None (Some "0xAAA1")) initial "0xAAA1"
              "secret is required" eq_refl ltac:(discriminate)
              (fun _ => eq_refl)) as (Hres & _ & Hroom).
  split; [exact Hres | exact Hroom].
Defined.

(** C3: joining a registered room twice in a row with the same identifier
    leaves the room, after the second call, as it was after the first, with
    a participants list of the same length, in which a valid identifier
    occurs; and in every reachable state no room lists an identifier
    twice. *)
Theorem join_room_no_duplicate st (id : string) (r : Room.t) :
  rooms st !! id = Some r ->
  (forall env1 env2 body P,
     roomId body = Some id ->
     walletAddress body = Some P ->
     let st1 := (join_room env1 body st).2 in
     let st2 := (join_room env2 body st1).2 in
     exists r1 r2,
       rooms st1 !! id = Some r1 /\ rooms st2 !! id = Some r2 /\
       length (Room.participants r2) = length (Room.participants r1) /\
       r2 = r1 /\
       (id <> EmptyString -> P <> EmptyString -> P ∈ Room.participants r1)) /\
  (reachable st -> NoDup (Room.participants r)).
Proof.
  intros Hr. split; [|intros Hst; by eapply reachable_registry_ok].
  intros env1 env2 body P Hid HP st1 st2.
  assert (H1 : exists r1,
             rooms st1 !! id = Some r1 /\
             (id <> EmptyString -> P <> EmptyString ->
              P ∈ Room.participants r1)).
  { subst st1. rewrite join_room_rooms, Hid, HP.
    destruct id as [|c k]; [cbn; by exists r|].
    destruct P as [|c' w]; [cbn; by exists r|].
    cbn. rewrite Hr. case_bool_decide as Hin; [by exists r|].
    rewrite lookup_alter_eq, Hr. cbn. eexists; split; [done|].
    intros _ _. cbn. set_solver. }
  destruct H1 as (r1 & Hr1 & Hin). exists r1, r1. split_and!; try done.
  subst st2. rewrite join_room_rooms, Hid, HP.
  destruct id as [|c k]; [done|]. destruct P as [|c' w]; [done|].
  cbn. rewrite Hr1. by rewrite bool_decide_eq_true_2 by auto.
Qed.

Lemma join_room_no_duplicate_witness :
  let body := Sample.body (Some "4FZYO82MVY") (Some "0xBBB2") in
  let st1 := (join_room (Sample.env "0.x" Sample.signs) body Sample.created).2 in
  let st2 := (join_room (Sample.env "0.y" Sample.signs) body st1).2 in
  rooms Sample.created !! "4FZYO82MVY"
  = Some (Room.Build "4FZYO82MVY" "0xAAA1" ["0xAAA1"] 1700000000000) /\
  reachable Sample.created /\
  (exists r1 r2,
     rooms st1 !! "4FZYO82MVY" = Some r1 /\ rooms st2 !! "4FZYO82MVY" = Some r2 /\
     length (Room.participants r2) = length (Room.participants r1)) /\
  NoDup ["0xAAA1"].
Proof.
  cbv zeta.
  assert (Hr : rooms Sample.created !! "4FZYO82MVY"
               = Some (Room.Build "4FZYO82MVY" "0xAAA1" ["0xAAA1"]
                         1700000000000)) by (vm_compute; reflexivity).
  assert (Hreach : reachable Sample.created)
    by (apply reachable_handle, reachable_initial).
  destruct (join_room_no_duplicate Sample.created "4FZYO82MVY" _ Hr)
    as [Htwice Hnodup].
  split; [exact Hr|]. split; [exact Hreach|]. split; [|exact (Hnodup Hreach)].
  destruct (Htwice (Sample.env "0.x" Sample.signs)
              (Sample.env "0.y" Sample.signs)
              (Sample.body (Some "4FZYO82MVY") (Some "0xBBB2")) "0xBBB2"
              eq_refl eq_refl) as (r1 & r2 & H1 & H2 & Hlen & _).
  exists r1, r2. split; [exact H1|]. split; [exact H2 | exact Hlen].
Defined.

(** C5: when every participant of a registered room is [P], [leave-room]
    for [P] deletes the room, and reading it afterwards answers 404; and in
    every reachable state a registered room has at least one participant. *)
Theorem leave_room_last_participant env body st (id P : string) (r : Room.t) :
  roomId body = Some id ->
  walletAddress body = Some P ->
  rooms st !! id = Some r ->
  (Forall (fun p => p = P) (Room.participants r) ->
   let st' := (leave_room env body st).2 in
   rooms st' !! id = None /\
   rooms st' = delete id (rooms st) /\
   forall env',
     (get_room env' id st').1 = res_status_json 404 (Error "Room not found")) /\
  (reachable st -> Room.participants r <> []).
Proof.
  intros Hid HP Hr. split; [|intros Hst; by eapply reachable_registry_ok].
  intros Hall st'.
  assert (Hst' : rooms st' = delete id (rooms st)).
  { subst st'. rewrite leave_room_rooms, Hid, Hr, HP. cbv zeta.
    destruct (filter _ _) as [|p ps] eqn:Hf; [done|].
    assert (Hp : p ∈ filter (fun p => Some p ≠ Some P) (Room.participants r))
      by (rewrite Hf; set_solver).
    apply list_elem_of_filter in Hp as [Hne Hp].
    rewrite Forall_forall in Hall. by rewrite (Hall p Hp) in Hne. }
  split_and!; [by rewrite Hst', lookup_delete_eq | done |].
  intros env'. js_run. cbn. by rewrite Hst', lookup_delete_eq.
Qed.

Lemma leave_room_last_participant_witness :
  let body := Sample.body (Some "4FZYO82MVY") (Some "0xAAA1") in
  let st' := (leave_room (Sample.env "0.x" Sample.signs) body Sample.created).2 in
  rooms Sample.created !! "4FZYO82MVY"
  = Some (Room.Build "4FZYO82MVY" "0xAAA1" ["0xAAA1"] 1700000000000) /\
  reachable Sample.created /\
  rooms st' !! "4FZYO82MVY" = None /\
  (get_room (Sample.env "0.y" Sample.signs) "4FZYO82MVY" st').1
  = {| status := 404; json := Error "Room not found" |} /\
  ["0xAAA1"] <> [].
Proof.
  cbv zeta.
  assert (Hr : rooms Sample.created !! "4FZYO82MVY"
               = Some (Room.Build "4FZYO82MVY" "0xAAA1" ["0xAAA1"]
                         1700000000000)) by (vm_compute; reflexivity).
  assert (Hreach : reachable Sample.created)
    by (apply reachable_handle, reachable_initial).
  destruct (leave_room_last_participant (Sample.env "0.x" Sample.signs)
              (Sample.body (Some "4FZYO82MVY") (Some "0xAAA1")) Sample.created
              "4FZYO82MVY" "0xAAA1" _ eq_refl eq_refl Hr) as [Hlast Hne].
  destruct (Hlast ltac:(by repeat constructor)) as (Hgone & _ & Hget).
  split; [exact Hr|]. split; [exact Hreach|]. split; [exact Hgone|].
  split; [exact (Hget _) | exact (Hne Hreach)].
Defined.

(** C10: [leave-room] for [P] touches one room only.  The participants the
    room is left with are the former ones without [P], in their former
    order; the room keeps its [id], [host] and [created] fields, and is
    deleted when no participant is left; every other entry of the registry,
    and the trace of signed tokens, are unchanged. *)
Theorem leave_room_frame env body st (id P : string) :
  roomId body = Some id ->
  walletAddress body = Some P ->
  let st' := (leave_room env body st).2 in
  (forall id', id' <> id -> rooms st' !! id' = rooms st !! id') /\
  issued st' = issued st /\
  match rooms st !! id with
  | None => rooms st' !! id = None
  | Some r =>
      exists ps',
        ps' = filter (fun q => q <> P) (Room.participants r) /\
        (P ∉ ps') /\
        sublist ps' (Room.participants r) /\
        (forall q, q <> P -> q ∈ Room.participants r -> q ∈ ps') /\
        rooms st' !! id =
          match ps' with
          | [] => None
          | _ :: _ => Some {| Room.id := Room.id r; Room.host := Room.host r;
                              Room.participants := ps';
                              Room.created := Room.created r |}
          end
  end.
Proof.
  intros Hid HP st'. subst st'.
  rewrite leave_room_issued, leave_room_rooms, Hid, HP. cbv zeta.
  split_and!; [|done|].
  - intros id' Hne. destruct (rooms st !! id) as [r|]; [|done].
    destruct (filter _ _); [by rewrite lookup_delete_ne|by rewrite lookup_insert_ne].
  - destruct (rooms st !! id) as [r|] eqn:Hr; [|done].
    assert (Hf : filter (fun p => Some p ≠ Some P) (Room.participants r)
                 = filter (fun q => q <> P) (Room.participants r)).
    { apply list_filter_iff. intros q. split; [intros Hq ->; done | congruence]. }
    rewrite Hf. exists (filter (fun q => q <> P) (Room.participants r)).
    split_and!; [done| | | |].
    + intros [? _]%list_elem_of_filter. done.
    + apply sublist_filter.
    + intros q Hq Hin. by apply list_elem_of_filter.
    + generalize (filter (fun q => q <> P) (Room.participants r)).
      intros [|q ps]; [by rewrite lookup_delete_eq|by rewrite lookup_insert_eq].
Qed.

Lemma leave_room_frame_witness :
  let body := Sample.body (Some "4FZYO82MVY") (Some "0xAAA1") in
  let st' := (leave_room (Sample.env "0.x" Sample.signs) body Sample.joined).2 in
  roomId body = Some "4FZYO82MVY" /\
  walletAddress body = Some "0xAAA1" /\
  rooms st' !! "4FZYO82MVY"
  = Some (Room.Build "4FZYO82MVY" "0xAAA1" ["0xBBB2"] 1700000000000) /\
  issued st' = issued Sample.joined.
Proof.
  cbv zeta.
  destruct (leave_room_frame (Sample.env "0.x" Sample.signs)
              (Sample.body (Some "4FZYO82MVY") (Some "0xAAA1")) Sample.joined
              "4FZYO82MVY" "0xAAA1" eq_refl eq_refl) as (_ & Hiss & _).
  split; [reflexivity|]. split; [reflexivity|].
  split; [vm_compute; reflexivity | exact Hiss].
Defined.

(** * Further properties of [server.js] *)

(** ** More on strings *)

Section MoreStringFacts.

Lemma length_append s t :
  String.length (s +:+ t) = String.length s + String.length t.
Proof. induction s as [|c s IH]; simpl; [done | by rewrite IH]. Qed.

Lemma all_units_append p s t :
  all_units p (s +:+ t) = all_units p s && all_units p t.
Proof.
  induction s as [|c s IH]; simpl; [done|]. by rewrite IH, andb_assoc.
Qed.

(** [substring(0, n)] keeps the first [n] code units, all of them when
    there are fewer. *)
Lemma substring_0 s n : substring s 0 n = String.substring 0 n s.
Proof.
  unfold substring. rewrite Nat.min_0_l, Nat.min_0_l, Nat.max_0_l, Nat.sub_0_r.
  revert n. induction s as [|c s IH]; intros [|n]; cbn; try done.
  by rewrite IH.
Qed.

Lemma substring_0_map_units f s n :
  substring (map_units f s) 0 n = map_units f (substring s 0 n).
Proof.
  rewrite !substring_0. revert n.
  induction s as [|c s IH]; intros [|n]; cbn; try done. by rewrite IH.
Qed.

Lemma substring_0_idemp s n : substring (substring s 0 n) 0 n = substring s 0 n.
Proof.
  rewrite !substring_0. revert n.
  induction s as [|c s IH]; intros [|n]; cbn; try done. by rewrite IH.
Qed.

(** Truncation is monotone for the order of [sort]. *)
Lemma compare_substring_0 x y n :
  String.compare x y <> Gt ->
  String.compare (String.substring 0 n x) (String.substring 0 n y) <> Gt.
Proof.
  revert x y. induction n as [|n IH]; intros [|a x] [|b y]; cbn; try done.
  destruct (Ascii.compare a b); [apply IH|done..].
Qed.

Lemma lower_unit_not_upper c : is_upper (lower_unit c) = false.
Proof. destruct c as [[] [] [] [] [] [] [] []]; vm_compute; done. Qed.

Lemma lower_upper_unit c : lower_unit (upper_unit c) = lower_unit c.
Proof. destruct c as [[] [] [] [] [] [] [] []]; vm_compute; done. Qed.

Lemma lower_lower_unit c : lower_unit (lower_unit c) = lower_unit c.
Proof. destruct c as [[] [] [] [] [] [] [] []]; vm_compute; done. Qed.

Lemma toLowerCase_toUpperCase s : toLowerCase (toUpperCase s) = toLowerCase s.
Proof.
  unfold toLowerCase, toUpperCase.
  induction s as [|c s IH]; cbn; [done|]. by rewrite lower_upper_unit, IH.
Qed.

Lemma toLowerCase_idemp s : toLowerCase (toLowerCase s) = toLowerCase s.
Proof.
  unfold toLowerCase.
  induction s as [|c s IH]; cbn; [done|]. by rewrite lower_lower_unit, IH.
Qed.

Lemma toLowerCase_no_upper s :
  all_units (fun c => negb (is_upper c)) (toLowerCase s) = true.
Proof.
  unfold toLowerCase.
  induction s as [|c s IH]; cbn; [done|]. by rewrite lower_unit_not_upper, IH.
Qed.

(** The two parts of the name, in terms of the truncated identifiers. *)
Lemma createP2PRoomName_unfold A B :
  let x := substring (toLowerCase A) 0 8 in
  let y := substring (toLowerCase B) 0 8 in
  createP2PRoomName A B
  = if lt y x then "call-" +:+ y +:+ "-" +:+ x
    else "call-" +:+ x +:+ "-" +:+ y.
Proof.
  cbv zeta. unfold createP2PRoomName. cbn [sort insert_sorted].
  unfold lt, String.ltb.
  pose proof (compare_substring_0 (toLowerCase A) (toLowerCase B) 8) as Hxy.
  pose proof (compare_substring_0 (toLowerCase B) (toLowerCase A) 8) as Hyx.
  rewrite <- !substring_0 in Hxy, Hyx.
  rewrite (String.compare_antisym (toLowerCase A) (toLowerCase B)) in Hxy.
  rewrite (String.compare_antisym (substring (toLowerCase A) 0 8)) in Hxy.
  destruct (String.compare (toLowerCase B) (toLowerCase A)) eqn:E;
    destruct (String.compare (substring (toLowerCase B) 0 8)
                (substring (toLowerCase A) 0 8)) eqn:E';
    cbn in *; try done;
    try (by destruct Hyx); try (by destruct Hxy);
    apply String.compare_eq_iff in E'; by rewrite E'.
Qed.

End MoreStringFacts.

(** ** Peer-to-peer room names *)

(** X1: a peer-to-peer room name is [call-], then the first eight code
    units of one lower-cased identifier, a dash, and the first eight of the
    other, the smaller part first; it has at most 22 code units and no
    uppercase letter. *)
Theorem createP2PRoomName_format (A B : string) :
  let x := substring (toLowerCase A) 0 8 in
  let y := substring (toLowerCase B) 0 8 in
  exists p q,
    createP2PRoomName A B = "call-" +:+ p +:+ "-" +:+ q /\
    ((p = x /\ q = y) \/ (p = y /\ q = x)) /\
    lt q p = false /\
    String.length p <= 8 /\ String.length q <= 8 /\
    String.length (createP2PRoomName A B) <= 22 /\
    all_units (fun c => negb (is_upper c)) (createP2PRoomName A B) = true.
Proof.
  intros x y.
  assert (Hlen : forall s, String.length (substring s 0 8) <= 8).
  { intros s. rewrite length_substring. lia. }
  assert (Hlow : forall s,
             all_units (fun c => negb (is_upper c))
               (substring (toLowerCase s) 0 8) = true).
  { intros s. rewrite substring_0. apply all_units_substring,
      toLowerCase_no_upper. }
  assert (Hshape : forall p q,
             String.length p <= 8 -> String.length q <= 8 ->
             all_units (fun c => negb (is_upper c)) p = true ->
             all_units (fun c => negb (is_upper c)) q = true ->
             String.length ("call-" +:+ p +:+ "-" +:+ q) <= 22 /\
             all_units (fun c => negb (is_upper c))
               ("call-" +:+ p +:+ "-" +:+ q) = true).
  { intros p q Hp Hq Hp' Hq'.
    rewrite !length_append, !all_units_append, Hp', Hq'. cbn. split; [lia|done]. }
  rewrite createP2PRoomName_unfold. fold x y.
  destruct (lt y x) eqn:Hyx.
  - exists y, x.
    destruct (Hshape y x (Hlen _) (Hlen _) (Hlow _) (Hlow _)) as [H22 Hup].
    split_and!; try done; try apply Hlen; try (by right).
    unfold lt, String.ltb in *. rewrite String.compare_antisym.
    by destruct (String.compare y x).
  - exists x, y.
    destruct (Hshape x y (Hlen _) (Hlen _) (Hlow _) (Hlow _)) as [H22 Hup].
    split_and!; try done; try apply Hlen; by left.
Qed.

(** X2: the name depends on an identifier through the first eight code
    units of its lower-cased form only: two identifiers that agree there
    give the same room with any third party. *)
Theorem createP2PRoomName_prefix_collision (A A' B : string) :
  substring (toLowerCase A) 0 8 = substring (toLowerCase A') 0 8 ->
  createP2PRoomName A B = createP2PRoomName A' B /\
  createP2PRoomName B A = createP2PRoomName B A'.
Proof.
  intros Hpre. rewrite !createP2PRoomName_unfold. cbv zeta.
  by rewrite Hpre.
Qed.

Lemma createP2PRoomName_prefix_collision_witness :
  substring (toLowerCase "0xAlice1234") 0 8
  = substring (toLowerCase "0xAlice1999") 0 8 /\
  createP2PRoomName "0xAlice1234" "0xBob5678"
  = createP2PRoomName "0xAlice1999" "0xBob5678".
Proof.
  split; [reflexivity|].
  exact (proj1 (createP2PRoomName_prefix_collision
                  "0xAlice1234" "0xAlice1999" "0xBob5678" eq_refl)).
Defined.

(** X3: the name ignores the case of the letters A-Z in both identifiers. *)
Theorem createP2PRoomName_case_insensitive (A B : string) :
  createP2PRoomName (toUpperCase A) B = createP2PRoomName A B /\
  createP2PRoomName A (toUpperCase B) = createP2PRoomName A B /\
  createP2PRoomName (toLowerCase A) (toLowerCase B) = createP2PRoomName A B.
Proof.
  unfold createP2PRoomName.
  by rewrite !toLowerCase_toUpperCase, !toLowerCase_idemp.
Qed.

(** ** One request: the token it signs and the status it answers *)

Section OneRequest.

Ltac js_sign_as E :=
  match goal with
  | |- context [match toJwt ?env ?at_ with _ => _ end] =>
      destruct (toJwt env at_) eqn:E
  end.

(** A handler either signs nothing, and then answers 200, 400 or 404
    without a token, or hands one well-formed token to [toJwt] and answers
    with what [toJwt] returned, or with 500 and what it threw. *)
Lemma handle_sign env req st :
  (issued (handle env req st).2 = issued st /\
   token_of (handle env req st).1 = None /\
   (status (handle env req st).1 = 200 \/
    status (handle env req st).1 = 400 \/
    status (handle env req st).1 = 404)) \/
  (exists at_,
     issued (handle env req st).2 = at_ :: issued st /\
     token_ok at_ /\
     match toJwt env at_ with
     | Normal token =>
         status (handle env req st).1 = 200 /\
         token_of (handle env req st).1 = Some token
     | Throw message =>
         (handle env req st).1 = res_status_json 500 (Error message)
     end).
Proof.
  assert (Hok : forall (c : ascii) (w room : string) h cl ct,
             token_ok
               {| apiKey := LIVEKIT_API_KEY env;
                  apiSecret := LIVEKIT_API_SECRET env;
                  identity := String c w;
                  name := substring (String c w) 0 8;
                  metadata := {| displayName := None;
                                 md_walletAddress := String c w;
                                 isHost := h; isCaller := cl;
                                 callType := ct |};
                  grant := {| roomJoin := true; room := room;
                              canPublish := true; canSubscribe := true;
                              canPublishData := true |} |}).
  { intros. by split_and!. }
  destruct req as [|b|b|b|b|b|k]; js_run.
  - left. cbn. auto.
  - destruct (walletAddress b) as [[|c w]|]; cbn; [left; cbn; auto| |left; cbn; auto].
    js_sign_as E; right; eexists; (split; [reflexivity|]); (split; [apply Hok|]);
      cbn; rewrite E; by cbn.
  - destruct (roomId b) as [[|c k]|]; cbn; [left; cbn; auto| |left; cbn; auto].
    destruct (walletAddress b) as [[|c' w]|]; cbn; [left; cbn; auto| |left; cbn; auto].
    destruct (rooms st !! String c k) as [r|]; cbn; [|left; cbn; auto].
    destruct (bool_decide _); cbn;
      js_sign_as E; right; eexists; (split; [reflexivity|]); (split; [apply Hok|]);
      cbn; rewrite E; by cbn.
  - destruct (callerWallet b) as [[|c w]|]; cbn; [left; cbn; auto| |left; cbn; auto].
    destruct (calleeWallet b) as [[|c' w']|]; cbn; [left; cbn; auto| |left; cbn; auto].
    js_sign_as E; right; eexists; (split; [reflexivity|]); (split; [apply Hok|]);
      cbn; rewrite E; by cbn.
  - destruct (callerWallet b) as [[|c w]|]; cbn; [left; cbn; auto| |left; cbn; auto].
    destruct (calleeWallet b) as [[|c' w']|]; cbn; [left; cbn; auto| |left; cbn; auto].
    js_sign_as E; right; eexists; (split; [reflexivity|]); (split; [apply Hok|]);
      cbn; rewrite E; by cbn.
  - left. destruct (roomId b) as [k|]; cbn; [|auto].
    destruct (rooms st !! k) as [r|]; cbn; [|auto].
    destruct (filter _ _); cbn; auto.
  - left. cbn. destruct (rooms st !! k) as [r|]; cbn; auto.
Qed.

End OneRequest.

(** ** Tokens and status codes *)

(** X4: every token the server has handed to [toJwt], in any reachable
    state, grants [roomJoin], [canPublish], [canSubscribe] and
    [canPublishData], has a non-empty identity, the first eight code units
    of the identity as display name, and the identity as the wallet address
    of its metadata. *)
Theorem issued_tokens_ok st (at_ : AccessToken) :
  reachable st -> at_ ∈ issued st -> token_ok at_.
Proof.
  intros Hst. revert at_. induction Hst as [|env req st _ IH]; intros at_.
  - cbn. by intros ?%not_elem_of_nil.
  - destruct (handle_sign env req st) as [(-> & _)|(at' & -> & Hok & _)].
    + apply IH.
    + intros [->|Hin]%elem_of_cons; [done | by apply IH].
Qed.

Lemma issued_tokens_ok_witness :
  exists at_,
    reachable Sample.joined /\ at_ ∈ issued Sample.joined /\
    identity at_ = "0xBBB2" /\ room (grant at_) = "meeting-4FZYO82MVY" /\
    token_ok at_.
Proof.
  assert (Hreach : reachable Sample.joined)
    by (apply reachable_handle, reachable_handle, reachable_initial).
  eexists. split; [exact Hreach|].
  assert (Hin : ?[at_] ∈ issued Sample.joined) by (vm_compute; left).
  split; [exact Hin|]. split; [reflexivity|]. split; [reflexivity|].
  exact (issued_tokens_ok Sample.joined _ Hreach Hin).
Defined.

(** X5: a response carries a token only when [toJwt] returned it, for
    exactly one token built during this request; the status is then 200. *)
Theorem response_token_signed env req st (token : string) :
  token_of (handle env req st).1 = Some token ->
  exists at_,
    issued (handle env req st).2 = at_ :: issued st /\
    toJwt env at_ = Normal token /\
    token_ok at_ /\
    status (handle env req st).1 = 200.
Proof.
  intros Htok.
  destruct (handle_sign env req st) as [(_ & Hnone & _)|(at_ & Hiss & Hok & Hres)].
  - by rewrite Hnone in Htok.
  - exists at_. destruct (toJwt env at_) as [t|m].
    + destruct Hres as [H200 Ht]. rewrite Ht in Htok. by simplify_eq.
    + by rewrite Hres in Htok.
Qed.

Lemma response_token_signed_witness :
  let env := Sample.env "0.x" Sample.signs in
  let req := PostJoinRoom (Sample.body (Some "4FZYO82MVY") (Some "0xBBB2")) in
  token_of (handle env req Sample.created).1
  = Some "jwt:0xBBB2@meeting-4FZYO82MVY" /\
  exists at_,
    issued (handle env req Sample.created).2 = at_ :: issued Sample.created /\
    toJwt env at_ = Normal "jwt:0xBBB2@meeting-4FZYO82MVY".
Proof.
  cbv zeta.
  assert (Htok : token_of
            (handle (Sample.env "0.x" Sample.signs)
               (PostJoinRoom (Sample.body (Some "4FZYO82MVY") (Some "0xBBB2")))
               Sample.created).1
            = Some "jwt:0xBBB2@meeting-4FZYO82MVY") by (vm_compute; reflexivity).
  split; [exact Htok|].
  destruct (response_token_signed _ _ _ _ Htok) as (at_ & Hiss & Hsig & _).
  exists at_. split; [exact Hiss | exact Hsig].
Defined.

(** X6: a handler answers 200, 400, 404 or 500, and when it answers 400 or
    404 it has changed nothing: the registry and the trace of token
    requests are what they were. *)
Theorem status_codes env req st :
  let res := (handle env req st).1 in
  let st' := (handle env req st).2 in
  (status res = 200 \/ status res = 400 \/ status res = 404 \/
   status res = 500) /\
  (status res = 400 \/ status res = 404 -> st' = st).
Proof.
  cbv zeta. split.
  - destruct (handle_sign env req st) as [(_ & _ & Hs)|(at_ & _ & _ & Hres)].
    + tauto.
    + destruct (toJwt env at_); [left; tauto | rewrite Hres; cbn; tauto].
  - destruct req as [|b|b|b|b|b|k]; js_run.
    + done.
    + destruct (walletAddress b) as [[|c w]|]; cbn; try done.
      js_sign; cbn; by intros [|].
    + destruct (roomId b) as [[|c k]|]; cbn; try done.
      destruct (walletAddress b) as [[|c' w]|]; cbn; try done.
      destruct (rooms st !! String c k) as [r|]; cbn; [|done].
      destruct (bool_decide _); cbn; js_sign; cbn; by intros [|].
    + destruct (callerWallet b) as [[|c w]|]; cbn; try done.
      destruct (calleeWallet b) as [[|c' w']|]; cbn; try done.
      js_sign; cbn; by intros [|].
    + destruct (callerWallet b) as [[|c w]|]; cbn; try done.
      destruct (calleeWallet b) as [[|c' w']|]; cbn; try done.
      js_sign; cbn; by intros [|].
    + destruct (roomId b) as [k|]; cbn; [|by intros [|]].
      destruct (rooms st !! k) as [r|]; cbn; [|by intros [|]].
      destruct (filter _ _); cbn; by intros [|].
    + cbn. by destruct (rooms st !! k).
Qed.

Lemma status_codes_witness :
  let env := Sample.env "0.x" Sample.signs in
  let req := PostJoinRoom (Sample.body (Some "NOSUCHROOM") (Some "0xBBB2")) in
  (status (handle env req Sample.created).1 = 400 \/
   status (handle env req Sample.created).1 = 404) /\
  (handle env req Sample.created).2 = Sample.created.
Proof.
  cbv zeta.
  assert (H404 : status (handle (Sample.env "0.x" Sample.signs)
                   (PostJoinRoom (Sample.body (Some "NOSUCHROOM")
                                    (Some "0xBBB2")))
                   Sample.created).1 = 404) by (vm_compute; reflexivity).
  split; [right; exact H404|].
  exact (proj2
    (status_codes (Sample.env "0.x" Sample.signs)
       (PostJoinRoom (Sample.body (Some "NOSUCHROOM") (Some "0xBBB2")))
       Sample.created)
    (or_intror H404)).
Defined.

(** ** More on the registry *)

Section Keyed.

Lemma handle_registry_keyed env req st :
  registry_keyed st -> registry_keyed (handle env req st).2.
Proof.
  intros Hok k r. destruct req as [|body|body|body|body|body|k']; cbn [handle].
  - rewrite health_rooms. apply Hok.
  - rewrite create_room_rooms.
    destruct (truthy (walletAddress body)) eqn:Hw; [|apply Hok].
    apply truthy_str in Hw as [_ Hw].
    rewrite lookup_insert. case_decide; [|apply Hok].
    intros [= <-]. cbn. split_and!; try done. by repeat constructor.
  - rewrite join_room_rooms.
    destruct (negb _ || negb (truthy (walletAddress body))) eqn:Hv;
      [apply Hok|].
    apply orb_false_elim in Hv as [_ Hw%negb_false_iff].
    apply truthy_str in Hw as [_ Hw].
    destruct (roomId body ≫= _) as [r0|] eqn:Hr0; [|apply Hok].
    case_bool_decide as Hin; [apply Hok|].
    rewrite lookup_alter. case_decide as Hk; [subst k|apply Hok].
    destruct (roomId body) as [k0|]; [|done]. cbn in *. rewrite Hr0. cbn.
    intros [= <-]. destruct (Hok _ _ Hr0) as (Hid & Hh & Hps).
    cbn. split_and!; try done. apply Forall_app. split; [done|].
    by repeat constructor.
  - rewrite start_call_rooms. apply Hok.
  - rewrite answer_call_rooms. apply Hok.
  - rewrite leave_room_rooms. destruct (roomId body) as [k0|]; [|apply Hok].
    destruct (rooms st !! k0) as [r0|] eqn:Hr0; [|apply Hok].
    cbv zeta. destruct (filter _ _) as [|p ps] eqn:Hf.
    + rewrite lookup_delete. case_decide; [done|apply Hok].
    + rewrite lookup_insert. case_decide; [|apply Hok].
      intros [= <-]. destruct (Hok _ _ Hr0) as (Hid & Hh & Hps).
      cbn. split_and!; try done; [congruence|].
      rewrite <- Hf. rewrite Forall_forall in Hps |- *.
      intros x [_ Hx]%list_elem_of_filter. by apply Hps.
  - rewrite get_room_rooms. apply Hok.
Qed.

Lemma reachable_registry_keyed st : reachable st -> registry_keyed st.
Proof.
  induction 1 as [|env req st _ IH].
  - intros k r. cbn. by rewrite lookup_empty.
  - by apply handle_registry_keyed.
Qed.

End Keyed.

(** X7: in every reachable state a room sits under its own [id] and has at
    least one participant; reading it with [GET /api/room/:roomId], which
    takes a non-empty id, answers 200 with the requested id, the room's
    host, its participant count and its creation time, and changes
    nothing. *)
Theorem registered_room_well_formed st (k : string) (r : Room.t) :
  reachable st ->
  rooms st !! k = Some r ->
  Room.id r = k /\
  1 <= length (Room.participants r) /\
  (k <> EmptyString ->
   forall env,
     get_room env k st
     = (res_json (RoomInfo k (Room.host r) (length (Room.participants r))
                    (Room.created r)), st)).
Proof.
  intros Hst Hr.
  destruct (reachable_registry_keyed st Hst k r Hr) as (Hid & _ & _).
  destruct (reachable_registry_ok st Hst k r Hr) as [_ Hne].
  split_and!; try done.
  - destruct (Room.participants r); [done | cbn; lia].
  - intros _ env. js_run. cbn. rewrite Hr. cbn. by rewrite Hid.
Qed.

Lemma registered_room_well_formed_witness :
  reachable Sample.joined /\
  rooms Sample.joined !! "4FZYO82MVY"
  = Some (Room.Build "4FZYO82MVY" "0xAAA1" ["0xAAA1"; "0xBBB2"] 1700000000000) /\
  "4FZYO82MVY" <> EmptyString /\
  get_room (Sample.env "0.z" Sample.signs) "4FZYO82MVY" Sample.joined
  = (res_json (RoomInfo "4FZYO82MVY" "0xAAA1" 2 1700000000000), Sample.joined).
Proof.
  assert (Hreach : reachable Sample.joined)
    by (apply reachable_handle, reachable_handle, reachable_initial).
  assert (Hr : rooms Sample.joined !! "4FZYO82MVY"
               = Some (Room.Build "4FZYO82MVY" "0xAAA1" ["0xAAA1"; "0xBBB2"]
                         1700000000000)) by (vm_compute; reflexivity).
  split; [exact Hreach|]. split; [exact Hr|]. split; [discriminate|].
  exact (proj2 (proj2
    (registered_room_well_formed Sample.joined "4FZYO82MVY" _ Hreach Hr))
    ltac:(discriminate) (Sample.env "0.z" Sample.signs)).
Defined.

(** X8: only [create-room] adds a key to the registry, and only the id it
    generates: no other request, [join-room] and the two call requests
    included, ever registers a room. *)
Theorem registry_keys_grow_by_create env req st :
  dom (rooms (handle env req st).2)
  ⊆ dom (rooms st) ∪
    (if creates req then {[generateRoomId (random36 env)]} else ∅).
Proof.
  assert (Hsame : forall X : gset string, dom (rooms st) ⊆ dom (rooms st) ∪ X)
    by (intros X; apply union_subseteq_l).
  destruct req as [|body|body|body|body|body|k]; cbn [handle creates].
  - by rewrite health_rooms.
  - rewrite create_room_rooms. destruct (truthy _); [|done].
    rewrite dom_insert_L. by rewrite (comm_L (∪)).
  - rewrite join_room_rooms. destruct (negb _ || negb _); [done|].
    destruct (roomId body ≫= _); [|done].
    case_bool_decide; [done|]. by rewrite dom_alter_L.
  - by rewrite start_call_rooms.
  - by rewrite answer_call_rooms.
  - rewrite leave_room_rooms. destruct (roomId body) as [k|]; [|done].
    destruct (rooms st !! k) as [r|] eqn:Hr; [|done].
    cbv zeta. destruct (filter _ _).
    + rewrite dom_delete_L. etrans; [apply subseteq_difference_l|]; done.
    + rewrite dom_insert_L. apply elem_of_dom_2 in Hr.
      etrans; [|apply Hsame]. apply union_subseteq; split; [|done].
      by apply singleton_subseteq_l.
  - by rewrite get_room_rooms.
Qed.

(** X9: a room's [id], [host] and [created] fields never change while it
    stays registered: whatever the request, unless it is a [create-room]
    that generates this very key, the room found under a key afterwards has
    the fields of the room found there before. *)
Theorem room_fields_immutable env req st (k : string) (r r' : Room.t) :
  creates req = false \/ k <> generateRoomId (random36 env) ->
  rooms st !! k = Some r ->
  rooms (handle env req st).2 !! k = Some r' ->
  Room.id r' = Room.id r /\ Room.host r' = Room.host r /\
  Room.created r' = Room.created r.
Proof.
  intros Hk Hr.
  assert (Hsame : rooms st !! k = Some r' ->
                  Room.id r' = Room.id r /\ Room.host r' = Room.host r /\
                  Room.created r' = Room.created r).
  { intros Hr'. by simplify_eq. }
  destruct req as [|body|body|body|body|body|k']; cbn [handle creates] in *.
  - by rewrite health_rooms.
  - destruct Hk as [|Hk]; [done|]. rewrite create_room_rooms.
    destruct (truthy _); [by rewrite lookup_insert_ne|done].
  - rewrite join_room_rooms. destruct (negb _ || negb _); [done|].
    destruct (roomId body ≫= _); [|done].
    case_bool_decide; [done|].
    rewrite lookup_alter. case_decide as E; [subst k|done].
    rewrite Hr. cbn. intros Hr'. by simplify_eq.
  - by rewrite start_call_rooms.
  - by rewrite answer_call_rooms.
  - rewrite leave_room_rooms.
    destruct (roomId body) as [k0|]; [|done].
    destruct (rooms st !! k0) as [r0|] eqn:Hr0; [|done].
    cbv zeta. destruct (filter _ _).
    + rewrite lookup_delete. by case_decide.
    + rewrite lookup_insert. case_decide as E; [subst k0|done].
      intros Hr'. by simplify_eq.
  - by rewrite get_room_rooms.
Qed.

Lemma room_fields_immutable_witness :
  let env := Sample.env "0.x" Sample.signs in
  let req := PostJoinRoom (Sample.body (Some "4FZYO82MVY") (Some "0xBBB2")) in
  (creates req = false \/ "4FZYO82MVY" <> generateRoomId (random36 env)) /\
  rooms Sample.created !! "4FZYO82MVY"
  = Some (Room.Build "4FZYO82MVY" "0xAAA1" ["0xAAA1"] 1700000000000) /\
  rooms (handle env req Sample.created).2 !! "4FZYO82MVY"
  = Some (Room.Build "4FZYO82MVY" "0xAAA1" ["0xAAA1"; "0xBBB2"] 1700000000000) /\
  "0xAAA1" = "0xAAA1".
Proof.
  cbv zeta.
  assert (H0 : rooms Sample.created !! "4FZYO82MVY"
               = Some (Room.Build "4FZYO82MVY" "0xAAA1" ["0xAAA1"]
                         1700000000000)) by (vm_compute; reflexivity).
  assert (H1 : rooms (handle (Sample.env "0.x" Sample.signs)
                 (PostJoinRoom (Sample.body (Some "4FZYO82MVY") (Some "0xBBB2")))
                 Sample.created).2 !! "4FZYO82MVY"
               = Some (Room.Build "4FZYO82MVY" "0xAAA1" ["0xAAA1"; "0xBBB2"]
                         1700000000000)) by (vm_compute; reflexivity).
  split; [left; reflexivity|]. split; [exact H0|]. split; [exact H1|].
  exact (proj1 (proj2
    (room_fields_immutable (Sample.env "0.x" Sample.signs)
       (PostJoinRoom (Sample.body (Some "4FZYO82MVY") (Some "0xBBB2")))
       Sample.created "4FZYO82MVY" _ _ (or_introl eq_refl) H0 H1))).
Defined.

(** ** Creating, joining and leaving *)

(** X10: [create-room] touches one key.  When the generated id is free the
    registry grows by one room, and [GET /] reports one more active room;
    when a room is already registered under that id, it is replaced by the
    new room, whose only participant is the new host, and the count stays. *)
Theorem create_room_fresh_or_replaced env body st (w : string) :
  walletAddress body = Some w ->
  w <> EmptyString ->
  let id := generateRoomId (random36 env) in
  let st' := (create_room env body st).2 in
  let count s := match json (health env s).1 with
                 | Health _ _ _ n _ => n
                 | _ => 0
                 end in
  (forall k, k <> id -> rooms st' !! k = rooms st !! k) /\
  rooms st' !! id = Some (Room.Build id w [w] (now env)) /\
  (rooms st !! id = None -> count st' = S (count st)) /\
  (is_Some (rooms st !! id) -> count st' = count st).
Proof.
  intros Hw Hw' id st' count.
  assert (Hrooms : rooms st' = <[id := Room.Build id w [w] (now env)]> (rooms st)).
  { subst st'. by rewrite create_room_rooms, Hw, (truthy_Some w Hw'). }
  subst count. cbn. rewrite Hrooms. split_and!.
  - intros k Hk. by rewrite lookup_insert_ne.
  - by rewrite lookup_insert_eq.
  - intros Hnone. by rewrite map_size_insert_None.
  - intros Hsome. by rewrite map_size_insert_Some.
Qed.

Lemma create_room_fresh_or_replaced_witness :
  let env := Sample.env "0.4fzyo82mvyr" Sample.signs in
  let body := Sample.body None (Some "0xCCC3") in
  walletAddress body = Some "0xCCC3" /\
  "0xCCC3" <> EmptyString /\
  rooms Sample.joined !! "4FZYO82MVY"
  = Some (Room.Build "4FZYO82MVY" "0xAAA1" ["0xAAA1"; "0xBBB2"] 1700000000000) /\
  rooms (create_room env body Sample.joined).2 !! "4FZYO82MVY"
  = Some (Room.Build "4FZYO82MVY" "0xCCC3" ["0xCCC3"] 1700000000000).
Proof.
  cbv zeta. split; [reflexivity|]. split; [discriminate|].
  split; [vm_compute; reflexivity|].
  exact (proj1 (proj2
    (create_room_fresh_or_replaced (Sample.env "0.4fzyo82mvyr" Sample.signs)
       (Sample.body None (Some "0xCCC3")) Sample.joined "0xCCC3" eq_refl
       ltac:(discriminate)))).
Defined.

(** X11: [join-room] on a registered room appends the identifier when it is
    not a participant yet, and nothing otherwise; the former participants
    keep their places, and no other room changes.  The token is requested
    for the identifier, the room [meeting-<roomId>] and [isHost: false]:
    when [generateToken] returns it, the answer is 200 with the room's id
    and host and the participant count after the join; when
    [generateToken] throws, the answer is 500 with the message, and the
    identifier has been added all the same. *)
Theorem join_room_registered env body st (id w : string) (r : Room.t) :
  roomId body = Some id ->
  walletAddress body = Some w ->
  id <> EmptyString ->
  w <> EmptyString ->
  rooms st !! id = Some r ->
  let res := (join_room env body st).1 in
  let st' := (join_room env body st).2 in
  let ps' := if bool_decide (w ∈ Room.participants r)
             then Room.participants r
             else (Room.participants r ++ [w])%list in
  rooms st' !! id = Some (Room.set_participants ps' r) /\
  (w ∈ ps') /\
  (forall k, k <> id -> rooms st' !! k = rooms st !! k) /\
  forall st0,
    match (generateToken env ("meeting-" +:+ id) w
             {| displayName := None; md_walletAddress := w;
                isHost := Some false; isCaller := None;
                callType := "group" |} st0).1 with
    | Normal token =>
        res = res_json (RoomJoined token (LIVEKIT_URL env) (Room.id r)
                          (Room.host r) (length ps'))
    | Throw message => res = res_status_json 500 (Error message)
    end.
Proof.
  intros Hid Hw Hid' Hw' Hr res st' ps'. subst res st' ps'.
  rewrite join_room_rooms. js_run.
  rewrite Hid, Hw, (truthy_Some id Hid'), (truthy_Some w Hw'). cbn.
  rewrite Hr. cbn. case_bool_decide as Hin; cbn.
  - split_and!; [rewrite Hr; by destruct r|done|done|].
    intros _. by destruct (toJwt env _).
  - split_and!.
    + by rewrite lookup_alter_eq, Hr.
    + apply elem_of_app. right. by apply list_elem_of_singleton.
    + intros k Hk. by rewrite lookup_alter_ne.
    + intros _. by destruct (toJwt env _).
Qed.

Lemma join_room_registered_witness :
  let env := Sample.env "0.x" Sample.fails in
  let body := Sample.body (Some "4FZYO82MVY") (Some "0xBBB2") in
  roomId body = Some "4FZYO82MVY" /\
  walletAddress body = Some "0xBBB2" /\
  "4FZYO82MVY" <> EmptyString /\
  "0xBBB2" <> EmptyString /\
  rooms Sample.created !! "4FZYO82MVY"
  = Some (Room.Build "4FZYO82MVY" "0xAAA1" ["0xAAA1"] 1700000000000) /\
  (join_room env body Sample.created).1
  = res_status_json 500 (Error "secret is required") /\
  rooms (join_room env body Sample.created).2 !! "4FZYO82MVY"
  = Some (Room.Build "4FZYO82MVY" "0xAAA1" ["0xAAA1"; "0xBBB2"] 1700000000000).
Proof.
  cbv zeta.
  assert (Hr : rooms Sample.created !! "4FZYO82MVY"
               = Some (Room.Build "4FZYO82MVY" "0xAAA1" ["0xAAA1"]
                         1700000000000)) by (vm_compute; reflexivity).
  destruct (join_room_registered (Sample.env "0.x" Sample.fails)
              (Sample.body (Some "4FZYO82MVY") (Some "0xBBB2")) Sample.created
              "4FZYO82MVY" "0xBBB2" _ eq_refl eq_refl ltac:(discriminate)
              ltac:(discriminate) Hr) as (Hroom & _ & _ & Hres).
  split; [reflexivity|]. split; [reflexivity|].
  split; [discriminate|]. split; [discriminate|]. split; [exact Hr|].
  split; [exact (Hres initial) | exact Hroom].
Defined.

Section RoundTrips.

Lemma set_participants_same r :
  Room.set_participants (Room.participants r) r = r.
Proof. by destruct r. Qed.

Lemma filter_leave_app (w : string) (ps : list string) :
  w ∉ ps ->
  filter (fun p => Some p ≠ Some w) (ps ++ [w])%list = ps.
Proof.
  intros Hw. rewrite filter_app, filter_cons_False, filter_nil, app_nil_r
    by (intros Hne; by apply Hne).
  induction ps as [|p ps IH]; [done|].
  apply not_elem_of_cons in Hw as [Hne Hw].
  rewrite filter_cons_True by congruence. by rewrite IH.
Qed.

Lemma filter_leave_idemp (v : option string) (ps : list string) :
  filter (fun p => Some p ≠ v) (filter (fun p => Some p ≠ v) ps)
  = filter (fun p => Some p ≠ v) ps.
Proof.
  induction ps as [|p ps IH]; [done|].
  destruct (decide (Some p ≠ v)) as [Hp|Hp].
  - rewrite (filter_cons_True _ p ps) by done.
    rewrite filter_cons_True by done. by rewrite IH.
  - by rewrite (filter_cons_False _ p ps) by done.
Qed.

End RoundTrips.

(** X12: leaving undoes joining.  When [w] joins a registered room that has
    participants and of which [w] is not one, and then leaves it, the
    registry is what it was before the join. *)
Theorem join_then_leave env1 env2 body st (id w : string) (r : Room.t) :
  roomId body = Some id ->
  walletAddress body = Some w ->
  id <> EmptyString ->
  w <> EmptyString ->
  rooms st !! id = Some r ->
  w ∉ Room.participants r ->
  Room.participants r <> [] ->
  rooms (leave_room env2 body (join_room env1 body st).2).2 = rooms st.
Proof.
  intros Hid Hw Hid' Hw' Hr Hin Hne.
  rewrite leave_room_rooms, join_room_rooms, Hid, Hw.
  rewrite (truthy_Some id Hid'), (truthy_Some w Hw'). cbn. rewrite Hr.
  rewrite bool_decide_eq_false_2 by done.
  rewrite lookup_alter_eq, Hr. cbn. rewrite filter_leave_app by done.
  destruct (Room.participants r) as [|p ps] eqn:Hps; [done|].
  apply map_eq. intros k. destruct (decide (k = id)) as [->|Hk].
  - rewrite lookup_insert_eq, Hr. f_equal. destruct r. cbn in *. by subst.
  - by rewrite lookup_insert_ne, lookup_alter_ne.
Qed.

Lemma join_then_leave_witness :
  let body := Sample.body (Some "4FZYO82MVY") (Some "0xBBB2") in
  roomId body = Some "4FZYO82MVY" /\
  walletAddress body = Some "0xBBB2" /\
  "4FZYO82MVY" <> EmptyString /\
  "0xBBB2" <> EmptyString /\
  rooms Sample.created !! "4FZYO82MVY"
  = Some (Room.Build "4FZYO82MVY" "0xAAA1" ["0xAAA1"] 1700000000000) /\
  ("0xBBB2" ∉ ["0xAAA1"]) /\
  ["0xAAA1"] <> [] /\
  rooms (leave_room (Sample.env "0.y" Sample.signs) body
           (join_room (Sample.env "0.x" Sample.signs) body Sample.created).2).2
  = rooms Sample.created.
Proof.
  cbv zeta.
  assert (Hr : rooms Sample.created !! "4FZYO82MVY"
               = Some (Room.Build "4FZYO82MVY" "0xAAA1" ["0xAAA1"]
                         1700000000000)) by (vm_compute; reflexivity).
  assert (Hin : "0xBBB2" ∉ ["0xAAA1"]).
  { intros Hin. apply list_elem_of_singleton in Hin. discriminate Hin. }
  split; [reflexivity|]. split; [reflexivity|].
  split; [discriminate|]. split; [discriminate|]. split; [exact Hr|].
  split; [exact Hin|]. split; [discriminate|].
  exact (join_then_leave (Sample.env "0.x" Sample.signs)
           (Sample.env "0.y" Sample.signs)
           (Sample.body (Some "4FZYO82MVY") (Some "0xBBB2")) Sample.created
           "4FZYO82MVY" "0xBBB2" _ eq_refl eq_refl ltac:(discriminate)
           ltac:(discriminate) Hr Hin ltac:(discriminate)).
Defined.

(** X13: leaving undoes creating.  When the host of a room that was created
    under a free id leaves it, with no one having joined, the registry is
    what it was before the room was created; this holds for the empty id
    too, which [leave-room] accepts. *)
Theorem create_then_leave env1 env2 body body' st (w : string) :
  walletAddress body = Some w ->
  w <> EmptyString ->
  rooms st !! generateRoomId (random36 env1) = None ->
  roomId body' = Some (generateRoomId (random36 env1)) ->
  walletAddress body' = Some w ->
  rooms (leave_room env2 body' (create_room env1 body st).2).2 = rooms st.
Proof.
  intros Hw Hw' Hfree Hid Hw2.
  rewrite leave_room_rooms, create_room_rooms, Hid, Hw, Hw2.
  rewrite (truthy_Some w Hw'). cbn. rewrite lookup_insert_eq. cbn.
  destruct (decide (Some w ≠ Some w)) as [Hne|_]; [done|].
  by rewrite delete_insert_eq, delete_id.
Qed.

Lemma create_then_leave_witness :
  let env := Sample.env "0.4fzyo82mvyr" Sample.signs in
  let body := Sample.body None (Some "0xAAA1") in
  let body' := Sample.body (Some "4FZYO82MVY") (Some "0xAAA1") in
  walletAddress body = Some "0xAAA1" /\
  "0xAAA1" <> EmptyString /\
  rooms initial !! generateRoomId (random36 env) = None /\
  roomId body' = Some (generateRoomId (random36 env)) /\
  walletAddress body' = Some "0xAAA1" /\
  rooms (leave_room env body' (create_room env body initial).2).2
  = rooms initial.
Proof.
  cbv zeta. split; [reflexivity|]. split; [discriminate|].
  split; [reflexivity|]. split; [reflexivity|]. split; [reflexivity|].
  exact (create_then_leave (Sample.env "0.4fzyo82mvyr" Sample.signs)
           (Sample.env "0.4fzyo82mvyr" Sample.signs)
           (Sample.body None (Some "0xAAA1"))
           (Sample.body (Some "4FZYO82MVY") (Some "0xAAA1")) initial "0xAAA1"
           eq_refl ltac:(discriminate) eq_refl eq_refl eq_refl).
Defined.

(** X14: [leave-room] is idempotent on the state: repeating the request
    changes neither the registry nor the trace of signed tokens. *)
Theorem leave_room_idempotent env1 env2 body st :
  let st1 := (leave_room env1 body st).2 in
  let st2 := (leave_room env2 body st1).2 in
  rooms st2 = rooms st1 /\ issued st2 = issued st1 /\ issued st1 = issued st.
Proof.
  cbv zeta. rewrite !leave_room_issued. split_and!; try done.
  rewrite (leave_room_rooms env2). rewrite (leave_room_rooms env1).
  destruct (roomId body) as [k|]; [|done].
  destruct (rooms st !! k) as [r|] eqn:Hr; [|by rewrite Hr].
  cbv zeta.
  pose proof (filter_leave_idemp (walletAddress body) (Room.participants r))
    as Hidem.
  destruct (filter _ (Room.participants r)) as [|p ps] eqn:Hf.
  - by rewrite lookup_delete_eq.
  - rewrite lookup_insert_eq. cbn [Room.participants Room.set_participants].
    rewrite Hidem. by rewrite insert_insert_eq.
Qed.

(** ** Calls and presence tests *)

(** X15: with both wallets present, [start-call] and [answer-call] leave
    the registry alone and answer with the token [generateToken] returns
    for the room [createP2PRoomName caller callee]: the caller's, flagged
    [isCaller: true], for [start-call], the callee's, flagged
    [isCaller: false], for [answer-call]; they answer 500 with the message
    when [generateToken] throws.  A [start-call] in the opposite direction
    asks for a token for that same room. *)
Theorem call_tokens_same_room env body body' st (caller callee : string) :
  callerWallet body = Some caller ->
  calleeWallet body = Some callee ->
  callerWallet body' = Some callee ->
  calleeWallet body' = Some caller ->
  caller <> EmptyString ->
  callee <> EmptyString ->
  let roomName := createP2PRoomName caller callee in
  let answers who flag res :=
    forall st0,
      match (generateToken env roomName who
               {| displayName := None; md_walletAddress := who;
                  isHost := None; isCaller := Some flag;
                  callType := "p2p" |} st0).1 with
      | Normal token => res = res_json (Call token roomName (LIVEKIT_URL env))
      | Throw message => res = res_status_json 500 (Error message)
      end in
  rooms (start_call env body st).2 = rooms st /\
  rooms (answer_call env body st).2 = rooms st /\
  rooms (start_call env body' st).2 = rooms st /\
  answers caller true (start_call env body st).1 /\
  answers callee false (answer_call env body st).1 /\
  answers callee true (start_call env body' st).1.
Proof.
  intros H1 H2 H1' H2' Hc Hd. cbv zeta.
  assert (Hsym : createP2PRoomName callee caller
                 = createP2PRoomName caller callee).
  { unfold createP2PRoomName.
    by rewrite (sort_pair_comm (toLowerCase callee) (toLowerCase caller)). }
  rewrite !start_call_rooms, answer_call_rooms.
  split_and!; try done; intros st0; js_run;
    rewrite ?H1, ?H2, ?H1', ?H2', ?(truthy_Some _ Hc), ?(truthy_Some _ Hd);
    cbn; rewrite ?Hsym; by destruct (toJwt env _).
Qed.

Lemma call_tokens_same_room_witness :
  let env := Sample.env "0.x" Sample.signs in
  let body := Sample.call (Some "0xAlice1234") (Some "0xBob5678") in
  let body' := Sample.call (Some "0xBob5678") (Some "0xAlice1234") in
  callerWallet body = Some "0xAlice1234" /\
  calleeWallet body = Some "0xBob5678" /\
  callerWallet body' = Some "0xBob5678" /\
  calleeWallet body' = Some "0xAlice1234" /\
  "0xAlice1234" <> EmptyString /\
  "0xBob5678" <> EmptyString /\
  (answer_call env body initial).1
  = res_json (Call "jwt:0xBob5678@call-0xalice1-0xbob567"
                "call-0xalice1-0xbob567" (Some "wss://example.livekit.cloud")) /\
  (start_call env body' initial).1
  = res_json (Call "jwt:0xBob5678@call-0xalice1-0xbob567"
                "call-0xalice1-0xbob567" (Some "wss://example.livekit.cloud")).
Proof.
  cbv zeta.
  destruct (call_tokens_same_room (Sample.env "0.x" Sample.signs)
              (Sample.call (Some "0xAlice1234") (Some "0xBob5678"))
              (Sample.call (Some "0xBob5678") (Some "0xAlice1234"))
              initial "0xAlice1234" "0xBob5678" eq_refl eq_refl eq_refl
              eq_refl ltac:(discriminate) ltac:(discriminate))
    as (_ & _ & _ & _ & Hanswer & Hback).
  split; [reflexivity|]. split; [reflexivity|].
  split; [reflexivity|]. split; [reflexivity|].
  split; [discriminate|]. split; [discriminate|].
  split; [exact (Hanswer initial) | exact (Hback initial)].
Defined.

(** X16: the presence tests take the empty string for a missing field.
    When a required field is absent or empty, [create-room], [join-room],
    [start-call] and [answer-call] answer 400 with their message and leave
    the state as it was, [join-room] even when a room is registered under
    the id it was given. *)
Theorem presence_tests env body st :
  (truthy (walletAddress body) = false ->
   create_room env body st
   = (res_status_json 400 (Error "Wallet address required"), st)) /\
  (truthy (roomId body) = false \/ truthy (walletAddress body) = false ->
   join_room env body st
   = (res_status_json 400 (Error "Room ID and wallet address required"), st)) /\
  (truthy (callerWallet body) = false \/ truthy (calleeWallet body) = false ->
   start_call env body st
   = (res_status_json 400 (Error "Both wallet addresses required"), st) /\
   answer_call env body st
   = (res_status_json 400 (Error "Both wallet addresses required"), st)).
Proof.
  split_and!.
  - intros Hw. js_run. by rewrite Hw.
  - intros Hv. js_run.
    assert (negb (truthy (roomId body)) || negb (truthy (walletAddress body))
            = true) as ->; [|done].
    destruct Hv as [-> | ->]; [done | apply orb_true_r].
  - intros Hv. js_run.
    assert (negb (truthy (callerWallet body))
            || negb (truthy (calleeWallet body)) = true) as ->; [|done].
    destruct Hv as [-> | ->]; [done | apply orb_true_r].
Qed.

Lemma presence_tests_witness :
  let body := Sample.body (Some "") (Some "0xBBB2") in
  let st := (create_room (Sample.env "0" Sample.signs)
               (Sample.body None (Some "0xAAA1")) initial).2 in
  (truthy (roomId body) = false \/ truthy (walletAddress body) = false) /\
  rooms st !! "" = Some (Room.Build "" "0xAAA1" ["0xAAA1"] 1700000000000) /\
  join_room (Sample.env "0.x" Sample.signs) body st
  = (res_status_json 400 (Error "Room ID and wallet address required"), st).
Proof.
  cbv zeta. split; [left; reflexivity|]. split; [vm_compute; reflexivity|].
  exact (proj1 (proj2 (presence_tests (Sample.env "0.x" Sample.signs)
                         (Sample.body (Some "") (Some "0xBBB2")) _))
           (or_introl eq_refl)).
Defined.

(** X17: [leave-room] changes nothing when there is nothing to remove: the
    room id is absent or unknown, or the room has participants and the
    identifier, absent or not, is none of them.  The answer is
    [{success: true}] and the state is what it was. *)
Theorem leave_room_nothing_to_remove env body st :
  match roomId body ≫= (fun k => rooms st !! k) with
  | None => True
  | Some r =>
      Room.participants r <> [] /\
      forall p, p ∈ Room.participants r -> Some p ≠ walletAddress body
  end ->
  leave_room env body st = (res_json Success, st).
Proof.
  intros Hnone.
  assert (Hres : (leave_room env body st).1 = res_json Success).
  { js_run. destruct (roomId body) as [k|]; cbn; [|done].
    destruct (rooms st !! k) as [r|]; cbn; [|done]. by destruct (filter _ _). }
  assert (Hrooms : rooms (leave_room env body st).2 = rooms st).
  { rewrite leave_room_rooms. destruct (roomId body) as [k|]; [|done].
    cbn in Hnone. destruct (rooms st !! k) as [r|] eqn:Hr; [|done].
    destruct Hnone as [Hne Hall]. cbv zeta.
    assert (Hf : filter (fun p => Some p ≠ walletAddress body)
                   (Room.participants r) = Room.participants r).
    { clear Hne Hr. induction (Room.participants r) as [|p ps IH]; [done|].
      rewrite filter_cons_True by (apply Hall; left).
      rewrite IH; [done|]. intros q Hq. apply Hall. by right. }
    rewrite Hf. destruct (Room.participants r) eqn:Hps; [done|].
    rewrite <- Hps, set_participants_same. by apply insert_id. }
  pose proof (leave_room_issued env body st) as Hiss.
  destruct (leave_room env body st) as [res [rs iss]]. cbn in *.
  subst. by destruct st.
Qed.

Lemma leave_room_nothing_to_remove_witness :
  let body := Sample.body (Some "4FZYO82MVY") (Some "0xCCC3") in
  rooms Sample.joined !! "4FZYO82MVY"
  = Some (Room.Build "4FZYO82MVY" "0xAAA1" ["0xAAA1"; "0xBBB2"] 1700000000000) /\
  leave_room (Sample.env "0.x" Sample.signs) body Sample.joined
  = (res_json Success, Sample.joined).
Proof.
  cbv zeta.
  assert (Hr : rooms Sample.joined !! "4FZYO82MVY"
               = Some (Room.Build "4FZYO82MVY" "0xAAA1" ["0xAAA1"; "0xBBB2"]
                         1700000000000)) by (vm_compute; reflexivity).
  split; [exact Hr|].
  apply (leave_room_nothing_to_remove (Sample.env "0.x" Sample.signs)
           (Sample.body (Some "4FZYO82MVY") (Some "0xCCC3")) Sample.joined).
  cbn [roomId walletAddress Sample.body mbind option_bind].
  rewrite Hr. split; [discriminate|].
  intros p Hp Heq. injection Heq as ->.
  apply elem_of_cons in Hp as [Hp|Hp]; [discriminate Hp|].
  apply list_elem_of_singleton in Hp. discriminate Hp.
Defined.

Section RoomIds.

Lemma upper_unit_not_lower c : is_lower (upper_unit c) = false.
Proof. destruct c as [[] [] [] [] [] [] [] []]; vm_compute; done. Qed.

Lemma generateRoomId_shape r :
  String.length (generateRoomId r) <= 10 /\
  all_units (fun c => negb (is_lower c)) (generateRoomId r) = true.
Proof.
  unfold generateRoomId, toUpperCase. split.
  - rewrite length_map_units, length_substring. lia.
  - induction (substring r 2 12) as [|c s IH]; cbn; [done|].
    by rewrite upper_unit_not_lower, IH.
Qed.

End RoomIds.

(** X18: whatever [Math.random] returns, a registered room id has at most
    ten code units and no lowercase letter. *)
Theorem registered_room_id_shape st (k : string) :
  reachable st ->
  is_Some (rooms st !! k) ->
  String.length k <= 10 /\
  all_units (fun c => negb (is_lower c)) k = true.
Proof.
  intros Hst. revert k. induction Hst as [|env req st _ IH]; intros k.
  - cbn. rewrite lookup_empty. by intros [? ?].
  - destruct req as [|body|body|body|body|body|k']; cbn [handle].
    + rewrite health_rooms. apply IH.
    + rewrite create_room_rooms. destruct (truthy _); [|apply IH].
      rewrite lookup_insert. case_decide as E; [|apply IH].
      intros _. subst k. apply generateRoomId_shape.
    + rewrite join_room_rooms. destruct (negb _ || negb _); [apply IH|].
      destruct (roomId body ≫= _); [|apply IH].
      case_bool_decide; [apply IH|].
      rewrite lookup_alter. case_decide; [|apply IH].
      subst k. intros Hs%fmap_is_Some. by apply IH.
    + rewrite start_call_rooms. apply IH.
    + rewrite answer_call_rooms. apply IH.
    + rewrite leave_room_rooms. destruct (roomId body) as [k0|]; [|apply IH].
      destruct (rooms st !! k0) as [r0|] eqn:Hr0; [|apply IH].
      cbv zeta. destruct (filter _ _).
      * rewrite lookup_delete. case_decide; [by intros [? ?]|apply IH].
      * rewrite lookup_insert. case_decide as E; [|apply IH].
        intros _. subst k0. apply IH. by rewrite Hr0.
    + rewrite get_room_rooms. apply IH.
Qed.

Lemma registered_room_id_shape_witness :
  reachable Sample.joined /\
  is_Some (rooms Sample.joined !! "4FZYO82MVY") /\
  String.length "4FZYO82MVY" <= 10.
Proof.
  assert (Hreach : reachable Sample.joined)
    by (apply reachable_handle, reachable_handle, reachable_initial).
  assert (Hr : is_Some (rooms Sample.joined !! "4FZYO82MVY"))
    by (vm_compute; eexists; reflexivity).
  split; [exact Hreach|]. split; [exact Hr|].
  exact (proj1 (registered_room_id_shape Sample.joined "4FZYO82MVY" Hreach Hr)).
Defined.
